(** * Findora: seller onboarding — registration endpoint, profile query,
      registration form and document staging

    A shallow embedding of
      - src/app/api/seller/register/route.ts   (the server schema and POST;
                                                the GET handler of
                                                /api/seller/profile follows
                                                it in the same file),
      - src/app/seller/register/page.tsx       (client schema, onSubmit,
                                                toggleCategory, the buttons),
      - src/app/seller/documents/page.tsx      (handleFileSelect),
    and the properties of the specification established on it.

    Conventions.
      - A JavaScript string is a Rocq [string]; a character stands for one
        UTF-16 code unit (those below 256), so [String.length] is [.length].
      - A JavaScript number is a binary64 [float].
      - [undefined] is [None] at type [option _]; a value that was parsed
        from JSON is a [json].
      - A JavaScript object used as a record of named members (a database
        row, validatedFields.data handed to Prisma) is an association list
        in member order.
      - Exceptions are explicit: a handler's [try]/[catch] is a match on a
        result. *)

From Stdlib Require Import Floats.PrimFloat ZArith Ascii String.
From stdpp Require Import base option list strings gmap.

Local Open Scope string_scope.
Local Set Warnings "-register-all".

(** ** JavaScript values that reach the code *)

(** The result of [request.json()] / [JSON.parse]. *)
Inductive json : Type :=
| JNull
| JBool (b : bool)
| JNum (x : float)
| JStr (s : string)
| JArr (items : list json)
| JObj (members : list (string * json)).

(** [o[k]] on the member list of a parsed object ([undefined] when absent). *)
Fixpoint member {V : Type} (k : string) (ms : list (string * V)) : option V :=
  match ms with
  | [] => None
  | (k', v) :: ms' => if String.eqb k k' then Some v else member k ms'
  end.

(** [body[k]], for any parsed value. *)
Definition prop (k : string) (body : json) : option json :=
  match body with
  | JObj ms => member k ms
  | _ => None
  end.

Fixpoint string_forallb (f : ascii -> bool) (s : string) : bool :=
  match s with
  | EmptyString => true
  | String c s' => f c && string_forallb f s'
  end.

Definition code (c : ascii) : nat := nat_of_ascii c.

(** [0-9] *)
Definition is_digit (c : ascii) : bool :=
  (48 <=? code c)%nat && (code c <=? 57)%nat.

(** [\s] (WhiteSpace and LineTerminator) among the code units below 256:
    TAB, LF, VT, FF, CR, SPACE, NBSP. *)
Definition is_space (c : ascii) : bool :=
  bool_decide (code c ∈ [9; 10; 11; 12; 13; 32; 160]%nat).

(** What the JavaScript runtime and the zod library contribute and the
    repository does not define. *)
Record Runtime : Type := {
  (** zod's [.url()] check on a string *)
  isUrl : string -> bool;
  (** zod's [.email()] check on a string *)
  isEmail : string -> bool;
  (** ECMAScript StringToNumber on a string that is not all white space *)
  StringToNumber : string -> float;
  (** ECMAScript ToNumber on an array or an object (through ToPrimitive) *)
  ObjectToNumber : json -> float;
}.

(** Truthiness, as [||], [!] and [?:] use it. *)
Definition truthy_string (s : string) : bool := negb (String.eqb s "").
Definition truthy_number (x : float) : bool :=
  negb (PrimFloat.eqb x 0%float || PrimFloat.is_nan x).

(** [Number(v)], the coercion of [z.coerce.number()]. *)
Definition Number (rt : Runtime) (v : option json) : float :=
  match v with
  | None => nan
  | Some JNull => 0%float
  | Some (JBool b) => if b then 1%float else 0%float
  | Some (JNum x) => x
  | Some (JStr s) =>
      if string_forallb is_space s then 0%float else StringToNumber rt s
  | Some (JArr items) => ObjectToNumber rt (JArr items)
  | Some (JObj ms) => ObjectToNumber rt (JObj ms)
  end.

(** ** The zod combinators the two schemas use

    A schema for values of type [T] maps the member found under a key
    ([None] when the key is absent) to the parsed value, or to [None] when
    it raises an issue. *)
Module Zod.

Definition schema (T : Type) : Type := option json -> option T.

(** [z.string()] *)
Definition string_ : schema string :=
  fun v => match v with Some (JStr s) => Some s | _ => None end.

(** [.refine(f)] and the built-in checks, all of which keep the value *)
Definition refine {T : Type} (f : T -> bool) (p : schema T) : schema T :=
  fun v => x ← p v; if f x then Some x else None.

(** [.min(n)] on a string *)
Definition min (n : nat) : schema string -> schema string :=
  refine (fun s => (n <=? String.length s)%nat).

(** [.max(n)] on a string *)
Definition max (n : nat) : schema string -> schema string :=
  refine (fun s => (String.length s <=? n)%nat).

(** [.regex(re)], the expression given by its matcher *)
Definition regex (re : string -> bool) : schema string -> schema string :=
  refine re.

(** [.url()] *)
Definition url (rt : Runtime) : schema string -> schema string :=
  refine (isUrl rt).

(** [.email()] *)
Definition email (rt : Runtime) : schema string -> schema string :=
  refine (isEmail rt).

(** [z.literal(s)] *)
Definition literal (s : string) : schema string :=
  fun v =>
    match v with
    | Some (JStr s') => if String.eqb s' s then Some s' else None
    | _ => None
    end.

(** [z.enum([...])] *)
Definition enum (values : list string) : schema string :=
  refine (fun s => bool_decide (s ∈ values)) string_.

(** [.optional()] *)
Definition optional {T : Type} (p : schema T) : schema (option T) :=
  fun v => match v with None => Some None | Some _ => Some <$> p v end.

(** [p.or(q)]: the first alternative that parses.  The output type of
    [p.optional().or(z.literal(s))] is that of [p.optional()], the literal
    being a present value. *)
Definition or {T : Type} (p : schema (option T)) (q : schema T)
  : schema (option T) :=
  fun v => match p v with Some x => Some x | None => Some <$> q v end.

(** [z.coerce.number()]: [Number(input)], rejected when it is NaN *)
Definition coerce_number (rt : Runtime) : schema float :=
  fun v => let x := Number rt v in if is_nan x then None else Some x.

(** [.min(n)] on a number: the issue is raised when [x < n] *)
Definition min_number (n : float) : schema float -> schema float :=
  refine (fun x => negb (PrimFloat.ltb x n)).

(** [.max(n)] on a number: the issue is raised when [x > n] *)
Definition max_number (n : float) : schema float -> schema float :=
  refine (fun x => negb (PrimFloat.ltb n x)).

(** [z.boolean()] *)
Definition boolean : schema bool :=
  fun v => match v with Some (JBool b) => Some b | _ => None end.

(** [.default(d)] *)
Definition default {T : Type} (d : T) (p : schema T) : schema T :=
  fun v => match v with None => Some d | Some _ => p v end.

(** [z.array(z.string())] *)
Definition array_of_string : schema (list string) :=
  fun v =>
    match v with
    | Some (JArr items) => mapM (fun i => string_ (Some i)) items
    | _ => None
    end.

(** [.min(n)] on an array *)
Definition min_items {T : Type} (n : nat)
  : schema (list T) -> schema (list T) :=
  refine (fun l => (n <=? length l)%nat).

End Zod.

(** The phone pattern of both schemas,
    [/^[+]?[0-9\s\-\(\)]{10,}$/]: an optional leading plus sign, then ten or
    more characters, each a digit, white space, a hyphen or a parenthesis,
    up to the end of the string.  The plus sign is not in the class, so
    the optional prefix never has to be given back. *)
Definition phone_class (c : ascii) : bool :=
  is_digit c || is_space c
  || Ascii.eqb c "-" || Ascii.eqb c "(" || Ascii.eqb c ")".

Definition phone_regex (s : string) : bool :=
  let rest := match s with String "+" r => r | _ => s end in
  (10 <=? String.length rest)%nat && string_forallb phone_class rest.

(** ** The registration payload

    Both [sellerRegistrationSchema] declarations are [z.object] over the
    same thirty keys; they differ in the checks on some of them. *)

(** [z.infer<typeof sellerRegistrationSchema>], the type of
    [validatedFields.data]. *)
Module Data.
Record t : Type := mk {
  businessName : string;
  businessType : string;
  description : option string;
  website : option string;
  phone : string;
  businessEmail : option string;
  contactPersonName : string;
  addressLine1 : string;
  addressLine2 : option string;
  city : string;
  state : string;
  country : string;
  postalCode : string;
  taxId : string;
  gstVatNumber : option string;
  businessLicense : string;
  yearsInBusiness : option float;
  facebookUrl : option string;
  instagramUrl : option string;
  linkedinUrl : option string;
  twitterUrl : option string;
  bankAccountHolder : string;
  bankName : string;
  accountNumber : string;
  ifscSwiftCode : string;
  bankBranchAddress : option string;
  productCategories : list string;
  managesOwnShipping : bool;
  needsShippingHelp : bool;
  termsAccepted : bool;
}.
End Data.

(** The argument of [z.object]: one schema per key. *)
Module Shape.
Record t : Type := mk {
  businessName : Zod.schema string;
  businessType : Zod.schema string;
  description : Zod.schema (option string);
  website : Zod.schema (option string);
  phone : Zod.schema string;
  businessEmail : Zod.schema (option string);
  contactPersonName : Zod.schema string;
  addressLine1 : Zod.schema string;
  addressLine2 : Zod.schema (option string);
  city : Zod.schema string;
  state : Zod.schema string;
  country : Zod.schema string;
  postalCode : Zod.schema string;
  taxId : Zod.schema string;
  gstVatNumber : Zod.schema (option string);
  businessLicense : Zod.schema string;
  yearsInBusiness : Zod.schema (option float);
  facebookUrl : Zod.schema (option string);
  instagramUrl : Zod.schema (option string);
  linkedinUrl : Zod.schema (option string);
  twitterUrl : Zod.schema (option string);
  bankAccountHolder : Zod.schema string;
  bankName : Zod.schema string;
  accountNumber : Zod.schema string;
  ifscSwiftCode : Zod.schema string;
  bankBranchAddress : Zod.schema (option string);
  productCategories : Zod.schema (list string);
  managesOwnShipping : Zod.schema bool;
  needsShippingHelp : Zod.schema bool;
  termsAccepted : Zod.schema bool;
}.
End Shape.

(** [error.flatten()]: the issues raised on the value as a whole, and the
    keys under which [fieldErrors] lists at least one issue (in schema
    order). *)
Record FlattenedError : Type := {
  formErrors : list string;
  fieldErrors : list string;
}.

Inductive SafeParseReturn : Type :=
| ParseSuccess (data : Data.t)
| ParseFailure (error : FlattenedError).

Module ZodObject.

(** The schema of key [k] run on [body[k]]. *)
Definition field {T : Type} (k : string) (p : Zod.schema T) (body : json)
  : option T :=
  p (prop k body).

(** The key, when its schema raises an issue. *)
Definition issue {T : Type} (k : string) (p : Zod.schema T) (body : json)
  : list string :=
  match field k p body with Some _ => [] | None => [k] end.

(** The parsed object when no key raises an issue; keys outside the shape
    are dropped. *)
Definition parse (sh : Shape.t) (body : json) : option Data.t :=
  businessName_ ← field "businessName" (Shape.businessName sh) body;
  businessType_ ← field "businessType" (Shape.businessType sh) body;
  description_ ← field "description" (Shape.description sh) body;
  website_ ← field "website" (Shape.website sh) body;
  phone_ ← field "phone" (Shape.phone sh) body;
  businessEmail_ ← field "businessEmail" (Shape.businessEmail sh) body;
  contactPersonName_ ←
      field "contactPersonName" (Shape.contactPersonName sh) body;
  addressLine1_ ← field "addressLine1" (Shape.addressLine1 sh) body;
  addressLine2_ ← field "addressLine2" (Shape.addressLine2 sh) body;
  city_ ← field "city" (Shape.city sh) body;
  state_ ← field "state" (Shape.state sh) body;
  country_ ← field "country" (Shape.country sh) body;
  postalCode_ ← field "postalCode" (Shape.postalCode sh) body;
  taxId_ ← field "taxId" (Shape.taxId sh) body;
  gstVatNumber_ ← field "gstVatNumber" (Shape.gstVatNumber sh) body;
  businessLicense_ ← field "businessLicense" (Shape.businessLicense sh) body;
  yearsInBusiness_ ← field "yearsInBusiness" (Shape.yearsInBusiness sh) body;
  facebookUrl_ ← field "facebookUrl" (Shape.facebookUrl sh) body;
  instagramUrl_ ← field "instagramUrl" (Shape.instagramUrl sh) body;
  linkedinUrl_ ← field "linkedinUrl" (Shape.linkedinUrl sh) body;
  twitterUrl_ ← field "twitterUrl" (Shape.twitterUrl sh) body;
  bankAccountHolder_ ←
      field "bankAccountHolder" (Shape.bankAccountHolder sh) body;
  bankName_ ← field "bankName" (Shape.bankName sh) body;
  accountNumber_ ← field "accountNumber" (Shape.accountNumber sh) body;
  ifscSwiftCode_ ← field "ifscSwiftCode" (Shape.ifscSwiftCode sh) body;
  bankBranchAddress_ ←
      field "bankBranchAddress" (Shape.bankBranchAddress sh) body;
  productCategories_ ←
      field "productCategories" (Shape.productCategories sh) body;
  managesOwnShipping_ ←
      field "managesOwnShipping" (Shape.managesOwnShipping sh) body;
  needsShippingHelp_ ←
      field "needsShippingHelp" (Shape.needsShippingHelp sh) body;
  termsAccepted_ ← field "termsAccepted" (Shape.termsAccepted sh) body;
  Some (Data.mk businessName_ businessType_ description_ website_ phone_
          businessEmail_ contactPersonName_ addressLine1_ addressLine2_
          city_ state_ country_ postalCode_ taxId_ gstVatNumber_
          businessLicense_ yearsInBusiness_ facebookUrl_ instagramUrl_
          linkedinUrl_ twitterUrl_ bankAccountHolder_ bankName_
          accountNumber_ ifscSwiftCode_ bankBranchAddress_
          productCategories_ managesOwnShipping_ needsShippingHelp_
          termsAccepted_).

(** Every key is parsed, whatever the others did, and the issues add up. *)
Definition issues (sh : Shape.t) (body : json) : list string :=
  issue "businessName" (Shape.businessName sh) body
  ++ issue "businessType" (Shape.businessType sh) body
  ++ issue "description" (Shape.description sh) body
  ++ issue "website" (Shape.website sh) body
  ++ issue "phone" (Shape.phone sh) body
  ++ issue "businessEmail" (Shape.businessEmail sh) body
  ++ issue "contactPersonName" (Shape.contactPersonName sh) body
  ++ issue "addressLine1" (Shape.addressLine1 sh) body
  ++ issue "addressLine2" (Shape.addressLine2 sh) body
  ++ issue "city" (Shape.city sh) body
  ++ issue "state" (Shape.state sh) body
  ++ issue "country" (Shape.country sh) body
  ++ issue "postalCode" (Shape.postalCode sh) body
  ++ issue "taxId" (Shape.taxId sh) body
  ++ issue "gstVatNumber" (Shape.gstVatNumber sh) body
  ++ issue "businessLicense" (Shape.businessLicense sh) body
  ++ issue "yearsInBusiness" (Shape.yearsInBusiness sh) body
  ++ issue "facebookUrl" (Shape.facebookUrl sh) body
  ++ issue "instagramUrl" (Shape.instagramUrl sh) body
  ++ issue "linkedinUrl" (Shape.linkedinUrl sh) body
  ++ issue "twitterUrl" (Shape.twitterUrl sh) body
  ++ issue "bankAccountHolder" (Shape.bankAccountHolder sh) body
  ++ issue "bankName" (Shape.bankName sh) body
  ++ issue "accountNumber" (Shape.accountNumber sh) body
  ++ issue "ifscSwiftCode" (Shape.ifscSwiftCode sh) body
  ++ issue "bankBranchAddress" (Shape.bankBranchAddress sh) body
  ++ issue "productCategories" (Shape.productCategories sh) body
  ++ issue "managesOwnShipping" (Shape.managesOwnShipping sh) body
  ++ issue "needsShippingHelp" (Shape.needsShippingHelp sh) body
  ++ issue "termsAccepted" (Shape.termsAccepted sh) body.

(** [z.object(sh).safeParse(body)] *)
Definition safeParse (sh : Shape.t) (body : json) : SafeParseReturn :=
  match body with
  | JObj _ =>
      match parse sh body with
      | Some data => ParseSuccess data
      | None =>
          ParseFailure {| formErrors := []; fieldErrors := issues sh body |}
      end
  | _ =>
      ParseFailure {| formErrors := ["invalid_type"]; fieldErrors := [] |}
  end.

End ZodObject.

(** ** The database, as far as the two routes use it *)

(** A column value. *)
Inductive cell : Type :=
| CNull
| CBool (b : bool)
| CNum (x : float)
| CStr (s : string)
| CDate (t : Z)
| CStrings (l : list string).

(** A row, or an object literal handed to Prisma: members in order. *)
Definition row : Type := list (string * cell).

(** Modelled from the spec: the profile store and the identities (lib/db
    and the Prisma schema are not part of the sources).  [sellerProfile] is
    the table of profile rows, in insertion order; [user] gives the role of
    each identity that has a user record, by id. *)
Record Database : Type := {
  sellerProfile : list row;
  user : gmap string string;
}.

(** Modelled from the spec: the columns the store fills in when a profile
    row is created — its id, the two timestamps, and the aggregates that
    out-of-scope collaborators maintain. *)
Record Generated : Type := {
  new_id : string;
  new_createdAt : Z;
  new_updatedAt : Z;
  new_averageRating : float;
  new_totalRatings : float;
  new_totalSales : float;
}.

Module Prisma.

Definition has_userId (userId : string) (r : row) : bool :=
  match member "userId" r with
  | Some (CStr s) => String.eqb s userId
  | _ => false
  end.

(** Modelled from the spec: [select: { k: true, ... }], the members of
    the row under the selected keys, in the order of the selection. *)
Fixpoint select (keys : list string) (r : row) : row :=
  match keys with
  | [] => []
  | k :: keys' =>
      match member k r with
      | Some v => (k, v) :: select keys' r
      | None => select keys' r
      end
  end.

(** Modelled from the spec:
    [db.sellerProfile.findUnique({ where: { userId } })]. *)
Definition findUnique (userId : string) (db : Database) : option row :=
  List.find (has_userId userId) (sellerProfile db).

(** Modelled from the spec: [db.sellerProfile.create({ data })], the new
    row and the store with that row added. *)
Definition create (data : row) (gen : Generated) (db : Database)
  : row * Database :=
  let r :=
    (data ++
    [ ("id", CStr (new_id gen));
      ("averageRating", CNum (new_averageRating gen));
      ("totalRatings", CNum (new_totalRatings gen));
      ("totalSales", CNum (new_totalSales gen));
      ("createdAt", CDate (new_createdAt gen));
      ("updatedAt", CDate (new_updatedAt gen)) ])%list in
  (r, {| sellerProfile := (sellerProfile db ++ [r])%list; user := user db |}).

(** Modelled from the spec:
    [db.user.update({ where: { id }, data: { role } })]; it throws
    ([None]) when no user record has that id. *)
Definition user_update (id role : string) (db : Database)
  : option Database :=
  match user db !! id with
  | Some _ =>
      Some {| sellerProfile := sellerProfile db;
              user := <[id := role]> (user db) |}
  | None => None
  end.

End Prisma.

(** ** Sessions and responses *)

(** The result of [getServerSession(authOptions)]: [null], or a session
    whose [user] and [user.id] may each be missing. *)
Record SessionUser : Type := { id : option string }.
Record Session : Type := { session_user : option SessionUser }.

(** [session?.user?.id] *)
Definition session_user_id (session : option Session) : option string :=
  s ← session; u ← session_user s; id u.

(** The JSON body of a response: the members the handlers ever set. *)
Record ResponseBody : Type := {
  message : option string;
  errors : option FlattenedError;
  seller : option row;
}.

(** [NextResponse.json(body, { status })] *)
Record Response : Type := {
  body : ResponseBody;
  status : nat;
}.

Definition message_only (m : string) : ResponseBody :=
  {| message := Some m; errors := None; seller := None |}.

(** ** src/app/api/seller/register/route.ts *)
Module RegisterRoute.

Definition sellerRegistrationSchema (rt : Runtime) : Shape.t := {|
  (* Business Information *)
  Shape.businessName := Zod.min 2 Zod.string_;
  Shape.businessType :=
    Zod.enum ["INDIVIDUAL"; "SOLE_PROPRIETORSHIP"; "PARTNERSHIP"; "LLC";
              "CORPORATION"; "NONPROFIT"];
  Shape.description := Zod.optional (Zod.max 500 (Zod.min 10 Zod.string_));
  Shape.website :=
    Zod.or (Zod.optional (Zod.url rt Zod.string_)) (Zod.literal "");
  Shape.phone := Zod.regex phone_regex Zod.string_;
  Shape.businessEmail :=
    Zod.or (Zod.optional (Zod.email rt Zod.string_)) (Zod.literal "");
  (* Contact Person *)
  Shape.contactPersonName := Zod.min 2 Zod.string_;
  (* Business Address *)
  Shape.addressLine1 := Zod.min 5 Zod.string_;
  Shape.addressLine2 := Zod.optional Zod.string_;
  Shape.city := Zod.min 2 Zod.string_;
  Shape.state := Zod.min 2 Zod.string_;
  Shape.country := Zod.min 2 Zod.string_;
  Shape.postalCode := Zod.min 3 Zod.string_;
  (* Tax & Legal Information *)
  Shape.taxId := Zod.min 5 Zod.string_;
  Shape.gstVatNumber := Zod.optional Zod.string_;
  Shape.businessLicense := Zod.min 3 Zod.string_;
  Shape.yearsInBusiness :=
    Zod.optional
      (Zod.max_number 100 (Zod.min_number 0 (Zod.coerce_number rt)));
  (* Social Media (Optional) *)
  Shape.facebookUrl :=
    Zod.or (Zod.optional (Zod.url rt Zod.string_)) (Zod.literal "");
  Shape.instagramUrl :=
    Zod.or (Zod.optional (Zod.url rt Zod.string_)) (Zod.literal "");
  Shape.linkedinUrl :=
    Zod.or (Zod.optional (Zod.url rt Zod.string_)) (Zod.literal "");
  Shape.twitterUrl :=
    Zod.or (Zod.optional (Zod.url rt Zod.string_)) (Zod.literal "");
  (* Payment Information *)
  Shape.bankAccountHolder := Zod.min 2 Zod.string_;
  Shape.bankName := Zod.min 2 Zod.string_;
  Shape.accountNumber := Zod.min 8 Zod.string_;
  Shape.ifscSwiftCode := Zod.min 8 Zod.string_;
  Shape.bankBranchAddress := Zod.optional Zod.string_;
  (* Product Categories *)
  Shape.productCategories := Zod.min_items 1 Zod.array_of_string;
  (* Shipping *)
  Shape.managesOwnShipping := Zod.default true Zod.boolean;
  Shape.needsShippingHelp := Zod.default false Zod.boolean;
  (* Terms *)
  Shape.termsAccepted := Zod.refine (fun val => Bool.eqb val true) Zod.boolean;
|}.

(** [v || null] on an optional string member *)
Definition string_or_null (v : option string) : cell :=
  match v with
  | Some s => if truthy_string s then CStr s else CNull
  | None => CNull
  end.

(** [v || null] on an optional number member *)
Definition number_or_null (v : option float) : cell :=
  match v with
  | Some x => if truthy_number x then CNum x else CNull
  | None => CNull
  end.

(** The [data] literal of [db.sellerProfile.create]; [now] is what
    [new Date()] returns. *)
Definition create_data (userId : string) (data : Data.t) (now : Z) : row :=
  [ ("userId", CStr userId);
    ("businessName", CStr (Data.businessName data));
    ("businessType", CStr (Data.businessType data));
    ("description", string_or_null (Data.description data));
    ("website", string_or_null (Data.website data));
    ("phone", CStr (Data.phone data));
    ("businessEmail", string_or_null (Data.businessEmail data));
    ("contactPersonName", CStr (Data.contactPersonName data));
    ("addressLine1", CStr (Data.addressLine1 data));
    ("addressLine2", string_or_null (Data.addressLine2 data));
    ("city", CStr (Data.city data));
    ("state", CStr (Data.state data));
    ("country", CStr (Data.country data));
    ("postalCode", CStr (Data.postalCode data));
    ("taxId", CStr (Data.taxId data));
    ("gstVatNumber", string_or_null (Data.gstVatNumber data));
    ("businessLicense", CStr (Data.businessLicense data));
    ("yearsInBusiness", number_or_null (Data.yearsInBusiness data));
    ("facebookUrl", string_or_null (Data.facebookUrl data));
    ("instagramUrl", string_or_null (Data.instagramUrl data));
    ("linkedinUrl", string_or_null (Data.linkedinUrl data));
    ("twitterUrl", string_or_null (Data.twitterUrl data));
    ("bankAccountHolder", CStr (Data.bankAccountHolder data));
    ("bankName", CStr (Data.bankName data));
    ("accountNumber", CStr (Data.accountNumber data));
    ("ifscSwiftCode", CStr (Data.ifscSwiftCode data));
    ("bankBranchAddress", string_or_null (Data.bankBranchAddress data));
    ("productCategories", CStrings (Data.productCategories data));
    ("managesOwnShipping", CBool (Data.managesOwnShipping data));
    ("needsShippingHelp", CBool (Data.needsShippingHelp data));
    ("termsAccepted", CBool (Data.termsAccepted data));
    ("termsAcceptedAt",
      if Data.termsAccepted data then CDate now else CNull);
    ("verificationStatus", CStr "PENDING") ].

(** The [select] of [db.sellerProfile.create]. *)
Definition created_selection : list string :=
  ["id"; "businessName"; "businessType"; "verificationStatus"; "createdAt"].

(** [POST(request)].  [session] is what [getServerSession] resolves to,
    [request_json] what [request.json()] resolves to ([None] when it
    throws), [now] the clock and [gen] the columns the store generates.
    The result is the response and the store the call leaves behind; the
    500 responses are the [catch] block. *)
Definition POST (rt : Runtime) (now : Z) (gen : Generated)
    (session : option Session) (request_json : option json)
    (db : Database) : Response * Database :=
  match session_user_id session with
  | Some userId =>
      if truthy_string userId then
        match request_json with
        | Some payload =>
            match ZodObject.safeParse (sellerRegistrationSchema rt) payload with
            | ParseFailure e =>
                ({| body := {| message := Some "Invalid input";
                               errors := Some e; seller := None |};
                    status := 400 |}, db)
            | ParseSuccess data =>
                match Prisma.findUnique userId db with
                | Some existingSeller =>
                    ({| body :=
                          message_only "You already have a seller profile";
                        status := 409 |}, db)
                | None =>
                    let '(created, db1) :=
                      Prisma.create (create_data userId data now) gen db in
                    let sellerProfile :=
                      Prisma.select created_selection created in
                    match Prisma.user_update userId "SELLER" db1 with
                    | Some db2 =>
                        ({| body :=
                              {| message :=
                                   Some "Seller profile created successfully";
                                 errors := None;
                                 seller := Some sellerProfile |};
                            status := 201 |}, db2)
                    | None =>
                        ({| body := message_only "Internal server error";
                            status := 500 |}, db1)
                    end
                end
            end
        | None =>
            ({| body := message_only "Internal server error";
                status := 500 |}, db)
        end
      else
        ({| body := message_only "Authentication required";
            status := 401 |}, db)
  | None =>
      ({| body := message_only "Authentication required";
          status := 401 |}, db)
  end.

End RegisterRoute.

(** ** The handler of GET /api/seller/profile (second part of route.ts) *)
Module ProfileRoute.

(** The [select] of [db.sellerProfile.findUnique]. *)
Definition profile_selection : list string :=
  ["id"; "businessName"; "businessType"; "description"; "website"; "phone";
   "verificationStatus"; "averageRating"; "totalRatings"; "totalSales";
   "createdAt"; "updatedAt"].

(** [GET()]: the response and the store the call leaves behind. *)
Definition GET (session : option Session) (db : Database)
  : Response * Database :=
  match session_user_id session with
  | Some userId =>
      if truthy_string userId then
        match Prisma.select profile_selection <$> Prisma.findUnique userId db with
        | Some sellerProfile =>
            ({| body := {| message := None; errors := None;
                           seller := Some sellerProfile |};
                status := 200 |}, db)
        | None =>
            ({| body := message_only "Seller profile not found";
                status := 404 |}, db)
        end
      else
        ({| body := message_only "Authentication required";
            status := 401 |}, db)
  | None =>
      ({| body := message_only "Authentication required";
          status := 401 |}, db)
  end.

End ProfileRoute.

(** ** src/app/seller/register/page.tsx *)
Module RegisterPage.

Definition sellerRegistrationSchema (rt : Runtime) : Shape.t := {|
  (* Business Information *)
  Shape.businessName := Zod.min 2 Zod.string_;
  Shape.businessType :=
    Zod.enum ["INDIVIDUAL"; "SOLE_PROPRIETORSHIP"; "PARTNERSHIP"; "LLC";
              "CORPORATION"; "NONPROFIT"];
  Shape.description := Zod.optional (Zod.max 500 (Zod.min 10 Zod.string_));
  Shape.website :=
    Zod.or (Zod.optional (Zod.url rt Zod.string_)) (Zod.literal "");
  Shape.phone := Zod.regex phone_regex Zod.string_;
  Shape.businessEmail :=
    Zod.or (Zod.optional (Zod.email rt Zod.string_)) (Zod.literal "");
  (* Contact Person *)
  Shape.contactPersonName := Zod.min 2 Zod.string_;
  (* Business Address *)
  Shape.addressLine1 := Zod.min 5 Zod.string_;
  Shape.addressLine2 := Zod.optional Zod.string_;
  Shape.city := Zod.min 2 Zod.string_;
  Shape.state := Zod.min 2 Zod.string_;
  Shape.country := Zod.min 2 Zod.string_;
  Shape.postalCode := Zod.min 3 Zod.string_;
  (* Tax & Legal Information *)
  Shape.taxId := Zod.min 1 Zod.string_;
  Shape.gstVatNumber := Zod.optional Zod.string_;
  Shape.businessLicense := Zod.min 1 Zod.string_;
  Shape.yearsInBusiness :=
    Zod.optional
      (Zod.max_number 100 (Zod.min_number 0 (Zod.coerce_number rt)));
  (* Social Media (Optional) *)
  Shape.facebookUrl :=
    Zod.or (Zod.optional (Zod.url rt Zod.string_)) (Zod.literal "");
  Shape.instagramUrl :=
    Zod.or (Zod.optional (Zod.url rt Zod.string_)) (Zod.literal "");
  Shape.linkedinUrl :=
    Zod.or (Zod.optional (Zod.url rt Zod.string_)) (Zod.literal "");
  Shape.twitterUrl :=
    Zod.or (Zod.optional (Zod.url rt Zod.string_)) (Zod.literal "");
  (* Payment Information *)
  Shape.bankAccountHolder := Zod.min 1 Zod.string_;
  Shape.bankName := Zod.min 1 Zod.string_;
  Shape.accountNumber := Zod.min 1 Zod.string_;
  Shape.ifscSwiftCode := Zod.min 1 Zod.string_;
  Shape.bankBranchAddress := Zod.optional Zod.string_;
  (* Product Categories *)
  Shape.productCategories := Zod.min_items 1 Zod.array_of_string;
  (* Shipping *)
  Shape.managesOwnShipping := Zod.default true Zod.boolean;
  Shape.needsShippingHelp := Zod.default false Zod.boolean;
  (* Terms *)
  Shape.termsAccepted := Zod.refine (fun val => Bool.eqb val true) Zod.boolean;
|}.

(** The catalog the check boxes of step 4 are drawn from. *)
Definition productCategories : list string :=
  ["Electronics"; "Fashion & Clothing"; "Home & Garden"; "Health & Beauty";
   "Sports & Outdoors"; "Books & Media"; "Toys & Games"; "Automotive";
   "Food & Beverages"; "Art & Crafts"; "Jewelry & Accessories";
   "Pet Supplies"; "Office & Business"; "Baby & Kids";
   "Music & Instruments"; "Other"].

(** The component's state: the four [useState] cells and the form kept by
    [useForm] — the value of [productCategories] (only ever written by
    [setValue]), the values of the other fields by name, and the keys of
    [formState.errors]. *)
Record State : Type := {
  isLoading : bool;
  error : string;
  success : bool;
  currentStep : nat;
  selectedCategories : list string;
  fields : list (string * json);
  form_errors : list string;
}.

(** The [defaultValues] of [useForm], [productCategories] apart. *)
Definition defaultValues : list (string * json) :=
  [("managesOwnShipping", JBool true); ("needsShippingHelp", JBool false)].

(** The inputs a step renders with [{...register(name)}], in document
    order, each with the value it takes when it mounts and the form holds
    none under its name: its entry of [defaultValues] if it has one, else
    what the empty element reports — the empty string for a text input, a
    select or a textarea, false for a check box.  The category check boxes
    of step 4 are not registered. *)
Definition step_inputs (step : nat) : list (string * json) :=
  match step with
  | 1 =>
      [ ("businessName", JStr ""); ("businessType", JStr "");
        ("description", JStr ""); ("website", JStr "");
        ("businessEmail", JStr "") ]
  | 2 =>
      [ ("contactPersonName", JStr ""); ("phone", JStr "");
        ("addressLine1", JStr ""); ("addressLine2", JStr "");
        ("city", JStr ""); ("state", JStr ""); ("country", JStr "");
        ("postalCode", JStr ""); ("facebookUrl", JStr "");
        ("instagramUrl", JStr ""); ("linkedinUrl", JStr "");
        ("twitterUrl", JStr "") ]
  | 3 =>
      [ ("taxId", JStr ""); ("gstVatNumber", JStr "");
        ("businessLicense", JStr ""); ("yearsInBusiness", JStr "") ]
  | 4 =>
      [ ("bankAccountHolder", JStr ""); ("bankName", JStr "");
        ("accountNumber", JStr ""); ("ifscSwiftCode", JStr "");
        ("bankBranchAddress", JStr ""); ("managesOwnShipping", JBool true);
        ("needsShippingHelp", JBool false) ]
  | 5 => [ ("termsAccepted", JBool false) ]
  | _ => []
  end.

(** An input mounts: a value the form already holds under its name is
    kept, otherwise the input's value is added to the form's values. *)
Definition register (input : string * json) (values : list (string * json))
  : list (string * json) :=
  match member (fst input) values with
  | Some _ => values
  | None => (values ++ [input])%list
  end.

(** The inputs of a step mount. *)
Definition mount (step : nat) (values : list (string * json))
  : list (string * json) :=
  foldl (fun vs input => register input vs) values (step_inputs step).

(** The page once it has rendered first: the [useState] initial values,
    [defaultValues], and the inputs of step 1 mounted. *)
Definition initial : State := {|
  isLoading := false;
  error := "";
  success := false;
  currentStep := 1;
  selectedCategories := [];
  fields := mount 1 defaultValues;
  form_errors := [];
|}.

(** [watch()]: the form's current values as one object. *)
Definition watch (st : State) : json :=
  JObj (fields st ++
        [("productCategories", JArr (JStr <$> selectedCategories st))])%list.

(** A call of [fetch]. *)
Record Request : Type := {
  url : string;
  method : string;
  request_body : json;
}.

(** How an awaited [fetch] ends: it rejects, or resolves to a response. *)
Inductive FetchOutcome : Type :=
| Rejected
| Resolved (response : Response).

(** [response.ok] *)
Definition ok (r : Response) : bool :=
  (200 <=? status r)%nat && (status r <=? 299)%nat.

(** [onSubmit(data)], run to completion against the outcome of its one
    [fetch]: the state it leaves and the requests it issued. *)
Definition onSubmit (data : json) (outcome : FetchOutcome) (st : State)
  : State * list Request :=
  let request :=
    {| url := "/api/seller/register"; method := "POST";
       request_body := data |} in
  (* setIsLoading(true); setError('') *)
  let after_try : bool * string :=
    match outcome with
    | Resolved response =>
        if ok response then (true, "")
        else
          (success st,
           match message (body response) with
           | Some m => if truthy_string m then m else "Something went wrong"
           | None => "Something went wrong"
           end)
    | Rejected => (success st, "An error occurred. Please try again.")
    end in
  (* finally: setIsLoading(false) *)
  ({| isLoading := false;
      error := snd after_try;
      success := fst after_try;
      currentStep := currentStep st;
      selectedCategories := selectedCategories st;
      fields := fields st;
      form_errors := form_errors st |},
   [request]).

(** The body of [toggleCategory], on the current selection. *)
Definition toggle (category : string) (current : list string)
  : list string :=
  if bool_decide (category ∈ current)
  then filter (fun c => c ≠ category) current
  else (current ++ [category])%list.

(** [toggleCategory(category)] *)
Definition toggleCategory (category : string) (st : State) : State :=
  {| isLoading := isLoading st;
     error := error st;
     success := success st;
     currentStep := currentStep st;
     selectedCategories := toggle category (selectedCategories st);
     fields := fields st;
     form_errors := form_errors st |}.

(** [trigger(name)], the blur handler of the inputs: the resolver runs
    the schema on the form's values and the error of [name] is set or
    cleared. *)
Definition trigger (rt : Runtime) (name : string) (st : State) : State :=
  let others := filter (fun k => k ≠ name) (form_errors st) in
  let failing :=
    match ZodObject.safeParse (sellerRegistrationSchema rt) (watch st) with
    | ParseSuccess _ => []
    | ParseFailure e => fieldErrors e
    end in
  {| isLoading := isLoading st;
     error := error st;
     success := success st;
     currentStep := currentStep st;
     selectedCategories := selectedCategories st;
     fields := fields st;
     form_errors :=
       if bool_decide (name ∈ failing) then (others ++ [name])%list
       else others |}.

Definition setCurrentStep (n : nat) (st : State) : State :=
  {| isLoading := isLoading st;
     error := error st;
     success := success st;
     currentStep := n;
     selectedCategories := selectedCategories st;
     fields := fields st;
     form_errors := form_errors st |}.

(** The render that follows a change of step: the inputs of the step now
    shown mount. *)
Definition render_step (st : State) : State :=
  {| isLoading := isLoading st;
     error := error st;
     success := success st;
     currentStep := currentStep st;
     selectedCategories := selectedCategories st;
     fields := mount (currentStep st) (fields st);
     form_errors := form_errors st |}.

(** The Previous button, rendered while [currentStep > 1]. *)
Definition clickPrevious (st : State) : State :=
  if negb (success st) && (1 <? currentStep st)%nat
  then render_step (setCurrentStep (currentStep st - 1) st)
  else st.

(** The Next button, rendered while [currentStep < 5]. *)
Definition clickNext (st : State) : State :=
  if negb (success st) && (currentStep st <? 5)%nat
  then render_step (setCurrentStep (currentStep st + 1) st)
  else st.

(** The Submit button, rendered in place of Next once [currentStep < 5]
    fails and disabled while [isLoading]: its [onClick] reads [watch()]
    and awaits [onSubmit] on it. *)
Definition clickSubmit (outcome : FetchOutcome) (st : State)
  : State * list Request :=
  if negb (success st) && negb (currentStep st <? 5)%nat
     && negb (isLoading st)
  then onSubmit (watch st) outcome st
  else (st, []).

End RegisterPage.

(** ** src/app/seller/documents/page.tsx *)
Module DocumentsPage.

(** The members of a [File] the page reads. *)
Record File : Type := {
  name : string;
  type : string;
  size : N;
}.

Record UploadedFile : Type := {
  uploaded_type : string;
  file : File;
  preview : string;
}.

Record Message : Type := {
  message_type : string;
  text : string;
}.

(** The [uploadedFiles] and [message] cells of the component. *)
Record State : Type := {
  uploadedFiles : list UploadedFile;
  message : Message;
}.

Definition allowedTypes : list string :=
  ["image/jpeg"; "image/png"; "image/jpg"; "application/pdf"].

(** [handleFileSelect(type, file)]; [createObjectURL] is the browser's
    [URL.createObjectURL]. *)
Definition handleFileSelect (createObjectURL : File -> string)
    (doc_type : string) (selected : option File) (st : State) : State :=
  match selected with
  | None => st
  | Some f =>
      (* Validate file type *)
      if negb (bool_decide (type f ∈ allowedTypes)) then
        {| uploadedFiles := uploadedFiles st;
           message :=
             {| message_type := "error";
                text := "Only JPEG, PNG, and PDF files are allowed" |} |}
      (* Validate file size (5MB max) *)
      else if (5 * 1024 * 1024 <? size f)%N then
        {| uploadedFiles := uploadedFiles st;
           message :=
             {| message_type := "error";
                text := "File size must be less than 5MB" |} |}
      else
        let preview := createObjectURL f in
        let filtered :=
          filter (fun u => uploaded_type u ≠ doc_type) (uploadedFiles st) in
        {| uploadedFiles :=
             (filtered ++
              [{| uploaded_type := doc_type; file := f;
                  preview := preview |}])%list;
           message :=
             {| message_type := "success";
                text := name f ++ " uploaded successfully" |} |}
  end.

(** An entry of [documentTypes]. *)
Record DocumentType : Type := {
  value : string;
  label : string;
  required : bool;
}.

Definition documentTypes : list DocumentType :=
  [ {| value := "ID_FRONT"; label := "Government ID (Front)";
       required := true |};
    {| value := "ID_BACK"; label := "Government ID (Back)";
       required := true |};
    {| value := "BUSINESS_LICENSE"; label := "Business License";
       required := false |};
    {| value := "TAX_DOCUMENT"; label := "Tax Document"; required := false |};
    {| value := "BANK_STATEMENT"; label := "Bank Statement";
       required := false |};
    {| value := "UTILITY_BILL"; label := "Utility Bill"; required := false |} ].

(** [uploadedFiles.find(f => f.type === type)], the entry a document type's
    card is rendered from. *)
Definition uploadedFile (doc_type : string) (st : State)
  : option UploadedFile :=
  List.find (fun f => String.eqb (uploaded_type f) doc_type)
    (uploadedFiles st).

(** [removeFile(type)] *)
Definition removeFile (doc_type : string) (st : State) : State :=
  {| uploadedFiles :=
       filter (fun f => uploaded_type f ≠ doc_type) (uploadedFiles st);
     message := {| message_type := ""; text := "" |} |}.

(** [labels.join(sep)] *)
Fixpoint join (sep : string) (labels : list string) : string :=
  match labels with
  | [] => ""
  | [l] => l
  | l :: rest => l ++ sep ++ join sep rest
  end.

(** [handleSubmit()], run to completion (the upload is a two-second timer
    that always resolves, and [uploading] is false again when it ends): the
    state it leaves and the route it schedules a push to, if any. *)
Definition handleSubmit (st : State) : State * option string :=
  let requiredTypes :=
    value <$> filter (fun t => required t = true) documentTypes in
  let uploadedTypes := uploaded_type <$> uploadedFiles st in
  let missingRequired :=
    filter (fun ty => ty ∉ uploadedTypes) requiredTypes in
  if (0 <? length missingRequired)%nat then
    let missingLabels :=
      label <$> filter (fun t => value t ∈ missingRequired) documentTypes in
    ({| uploadedFiles := uploadedFiles st;
        message :=
          {| message_type := "error";
             text := "Please upload required documents: "
                     ++ join ", " missingLabels |} |},
     None)
  else
    ({| uploadedFiles := uploadedFiles st;
        message :=
          {| message_type := "success";
             text := "Documents uploaded successfully! Your verification is under review." |} |},
     Some "/seller/dashboard").

(** The Submit Documents button, disabled while nothing is uploaded. *)
Definition clickSubmit (st : State) : State * option string :=
  if (length (uploadedFiles st) =? 0)%nat then (st, None)
  else handleSubmit st.

(** The first render. *)
Definition initial : State :=
  {| uploadedFiles := []; message := {| message_type := ""; text := "" |} |}.

End DocumentsPage.

(** ** src/app/seller/dashboard/page.tsx *)
Module SellerDashboard.

(** [useSession().status] *)
Inductive SessionStatus : Type :=
| session_loading
| authenticated
| unauthenticated.

(** The two [useState] cells. *)
Record State : Type := {
  sellerProfile : option row;
  loading : bool;
}.

Definition initial : State := {| sellerProfile := None; loading := true |}.

(** [fetchSellerProfile()], run to completion against the outcome of its
    [fetch('/api/seller/profile')]: the state it leaves and the route it
    pushes, if any. *)
Definition fetchSellerProfile (outcome : RegisterPage.FetchOutcome)
    (st : State) : State * option string :=
  match outcome with
  | RegisterPage.Resolved response =>
      if RegisterPage.ok response then
        ({| sellerProfile := seller (body response); loading := false |},
         None)
      else if (status response =? 404)%nat then
        ({| sellerProfile := sellerProfile st; loading := false |},
         Some "/seller/register")
      else ({| sellerProfile := sellerProfile st; loading := false |}, None)
  | RegisterPage.Rejected =>
      ({| sellerProfile := sellerProfile st; loading := false |}, None)
  end.

(** The effect on [status]: the profile is fetched once the session is
    authenticated. *)
Definition onStatus (session_status : SessionStatus)
    (outcome : RegisterPage.FetchOutcome) (st : State)
  : State * option string :=
  match session_status with
  | authenticated => fetchSellerProfile outcome st
  | _ => (st, None)
  end.

(** What the component returns. *)
Inductive View : Type :=
| Loading
| ToSignIn
| NoSellerProfile
| Dashboard (profile : row).

Definition render (session_status : SessionStatus) (st : State) : View :=
  match session_status with
  | session_loading => Loading
  | _ =>
      if loading st then Loading
      else
        match session_status with
        | unauthenticated => ToSignIn
        | _ =>
            match sellerProfile st with
            | None => NoSellerProfile
            | Some profile => Dashboard profile
            end
        end
  end.

End SellerDashboard.

(** ** Vocabulary of the specification *)

(** The session carries the identity [userId]: [session?.user?.id] is that
    non-empty string. *)
Definition authenticated_as (userId : string) (session : option Session)
  : Prop :=
  session_user_id session = Some userId ∧ userId ≠ "".

(** The session carries no identity. *)
Definition unauthenticated (session : option Session) : Prop :=
  ∀ userId, ¬ authenticated_as userId session.

(** [z.object(sh)] parses [payload] to [d]: key by key. *)
Definition parsed_as (sh : Shape.t) (payload : json) (d : Data.t) : Prop :=
  ZodObject.field "businessName" (Shape.businessName sh) payload
    = Some (Data.businessName d)
  ∧ ZodObject.field "businessType" (Shape.businessType sh) payload
    = Some (Data.businessType d)
  ∧ ZodObject.field "description" (Shape.description sh) payload
    = Some (Data.description d)
  ∧ ZodObject.field "website" (Shape.website sh) payload
    = Some (Data.website d)
  ∧ ZodObject.field "phone" (Shape.phone sh) payload
    = Some (Data.phone d)
  ∧ ZodObject.field "businessEmail" (Shape.businessEmail sh) payload
    = Some (Data.businessEmail d)
  ∧ ZodObject.field "contactPersonName" (Shape.contactPersonName sh) payload
    = Some (Data.contactPersonName d)
  ∧ ZodObject.field "addressLine1" (Shape.addressLine1 sh) payload
    = Some (Data.addressLine1 d)
  ∧ ZodObject.field "addressLine2" (Shape.addressLine2 sh) payload
    = Some (Data.addressLine2 d)
  ∧ ZodObject.field "city" (Shape.city sh) payload
    = Some (Data.city d)
  ∧ ZodObject.field "state" (Shape.state sh) payload
    = Some (Data.state d)
  ∧ ZodObject.field "country" (Shape.country sh) payload
    = Some (Data.country d)
  ∧ ZodObject.field "postalCode" (Shape.postalCode sh) payload
    = Some (Data.postalCode d)
  ∧ ZodObject.field "taxId" (Shape.taxId sh) payload
    = Some (Data.taxId d)
  ∧ ZodObject.field "gstVatNumber" (Shape.gstVatNumber sh) payload
    = Some (Data.gstVatNumber d)
  ∧ ZodObject.field "businessLicense" (Shape.businessLicense sh) payload
    = Some (Data.businessLicense d)
  ∧ ZodObject.field "yearsInBusiness" (Shape.yearsInBusiness sh) payload
    = Some (Data.yearsInBusiness d)
  ∧ ZodObject.field "facebookUrl" (Shape.facebookUrl sh) payload
    = Some (Data.facebookUrl d)
  ∧ ZodObject.field "instagramUrl" (Shape.instagramUrl sh) payload
    = Some (Data.instagramUrl d)
  ∧ ZodObject.field "linkedinUrl" (Shape.linkedinUrl sh) payload
    = Some (Data.linkedinUrl d)
  ∧ ZodObject.field "twitterUrl" (Shape.twitterUrl sh) payload
    = Some (Data.twitterUrl d)
  ∧ ZodObject.field "bankAccountHolder" (Shape.bankAccountHolder sh) payload
    = Some (Data.bankAccountHolder d)
  ∧ ZodObject.field "bankName" (Shape.bankName sh) payload
    = Some (Data.bankName d)
  ∧ ZodObject.field "accountNumber" (Shape.accountNumber sh) payload
    = Some (Data.accountNumber d)
  ∧ ZodObject.field "ifscSwiftCode" (Shape.ifscSwiftCode sh) payload
    = Some (Data.ifscSwiftCode d)
  ∧ ZodObject.field "bankBranchAddress" (Shape.bankBranchAddress sh) payload
    = Some (Data.bankBranchAddress d)
  ∧ ZodObject.field "productCategories" (Shape.productCategories sh) payload
    = Some (Data.productCategories d)
  ∧ ZodObject.field "managesOwnShipping" (Shape.managesOwnShipping sh) payload
    = Some (Data.managesOwnShipping d)
  ∧ ZodObject.field "needsShippingHelp" (Shape.needsShippingHelp sh) payload
    = Some (Data.needsShippingHelp d)
  ∧ ZodObject.field "termsAccepted" (Shape.termsAccepted sh) payload
    = Some (Data.termsAccepted d).

(** The required keys whose value is a string. *)
Definition required_strings : list string :=
  ["businessName"; "businessType"; "phone"; "contactPersonName";
   "addressLine1"; "city"; "state"; "country"; "postalCode"; "taxId";
   "businessLicense"; "bankAccountHolder"; "bankName"; "accountNumber";
   "ifscSwiftCode"].

(** [missing payload k]: the payload lacks the required field [k] — a
    required string that is absent, a [productCategories] that is not an
    array with at least one element, a [termsAccepted] that is not
    [true]. *)
Inductive missing (payload : json) : string -> Prop :=
| missing_string (k : string) :
    k ∈ required_strings -> prop k payload = None -> missing payload k
| missing_categories :
    (∀ item items,
       prop "productCategories" payload ≠ Some (JArr (item :: items))) ->
    missing payload "productCategories"
| missing_terms :
    prop "termsAccepted" payload ≠ Some (JBool true) ->
    missing payload "termsAccepted".

(** The optional keys, those the handler stores as [data.k || null]. *)
Definition optional_keys : list string :=
  ["description"; "website"; "businessEmail"; "addressLine2"; "gstVatNumber";
   "yearsInBusiness"; "facebookUrl"; "instagramUrl"; "linkedinUrl";
   "twitterUrl"; "bankBranchAddress"].

(** What is stored for an optional string: the string when it is present
    and not empty, null otherwise. *)
Definition non_empty_or_null (v : option string) : cell :=
  match v with
  | Some (String c s) => CStr (String c s)
  | _ => CNull
  end.

(** What is stored for an optional number: the number when it is present
    and not zero, null otherwise. *)
Definition non_zero_or_null (v : option float) : cell :=
  match v with
  | Some x => if PrimFloat.eqb x 0 then CNull else CNum x
  | None => CNull
  end.

(** The tax and payment columns of a profile row. *)
Definition payment_and_tax_keys : list string :=
  ["taxId"; "gstVatNumber"; "businessLicense"; "bankAccountHolder";
   "bankName"; "accountNumber"; "ifscSwiftCode"; "bankBranchAddress"].

(** The six minimum lengths the server schema sets above the client's 1. *)
Definition server_lengths (d : Data.t) : Prop :=
  (5 <= String.length (Data.taxId d))%nat
  ∧ (3 <= String.length (Data.businessLicense d))%nat
  ∧ (2 <= String.length (Data.bankAccountHolder d))%nat
  ∧ (2 <= String.length (Data.bankName d))%nat
  ∧ (8 <= String.length (Data.accountNumber d))%nat
  ∧ (8 <= String.length (Data.ifscSwiftCode d))%nat.

(** The profile rows of an identity. *)
Definition profiles_of (userId : string) (db : Database) : list row :=
  List.filter (Prisma.has_userId userId) (sellerProfile db).

(** One call of the registration endpoint: everything [POST] reads besides
    the store. *)
Record Call : Type := {
  call_now : Z;
  call_generated : Generated;
  call_session : option Session;
  call_json : option json;
}.

(** The store after a sequence of registration calls. *)
Definition after_calls (rt : Runtime) (calls : list Call) (db : Database)
  : Database :=
  foldl
    (fun db c =>
       snd (RegisterRoute.POST rt (call_now c) (call_generated c)
              (call_session c) (call_json c) db))
    db calls.

(** The document types the specification names. *)
Definition is_jpeg_png_or_pdf (mime : string) : Prop :=
  mime = "image/jpeg" ∨ mime = "image/jpg" ∨ mime = "image/png"
  ∨ mime = "application/pdf".

Definition MiB : N := 1024 * 1024.

(** ** Inputs for the examples *)

(** None of the examples reaches the checks the runtime contributes (no
    URL, no e-mail address, no numeric string, no array coerced to a
    number); they are evaluated with a runtime that accepts nothing and
    converts to NaN. *)
Definition inert_runtime : Runtime := {|
  isUrl := fun _ => false;
  isEmail := fun _ => false;
  StringToNumber := fun _ => nan;
  ObjectToNumber := fun _ => nan;
|}.

(** A registration payload with every required field, the given tax id and
    categories, and further members. *)
Definition example_payload (taxId : string) (categories : list string)
    (more : list (string * json)) : json :=
  JObj ([ ("businessName", JStr "Acme Traders");
          ("businessType", JStr "LLC");
          ("phone", JStr "+1 555-123-4567");
          ("contactPersonName", JStr "Jo Doe");
          ("addressLine1", JStr "12 Main Street");
          ("city", JStr "Pune");
          ("state", JStr "MH");
          ("country", JStr "India");
          ("postalCode", JStr "411001");
          ("taxId", JStr taxId);
          ("businessLicense", JStr "LIC-0042");
          ("bankAccountHolder", JStr "Jo Doe");
          ("bankName", JStr "State Bank");
          ("accountNumber", JStr "1234567890");
          ("ifscSwiftCode", JStr "SBIN0001234");
          ("productCategories", JArr (JStr <$> categories));
          ("termsAccepted", JBool true) ] ++ more)%list.

Definition valid_payload : json :=
  example_payload "ABCDE1234F" ["Electronics"] [].

Definition session_of (userId : string) : option Session :=
  Some {| session_user := Some {| id := Some userId |} |}.

Definition example_generated : Generated := {|
  new_id := "sp_1";
  new_createdAt := 1700000000000;
  new_updatedAt := 1700000000000;
  new_averageRating := 0;
  new_totalRatings := 0;
  new_totalSales := 0;
|}.

Definition example_now : Z := 1700000000000.

(** A store with one identity and no profile. *)
Definition fresh_db : Database :=
  {| sellerProfile := []; user := {[ "u1" := "USER" ]} |}.

(** The same store after that identity registered. *)
Definition registered_db : Database :=
  snd (RegisterRoute.POST inert_runtime example_now example_generated
         (session_of "u1") (Some valid_payload) fresh_db).

(** Three further registration calls: the same identity again with a valid
    payload, the same identity with an empty object, and a second identity
    (which has no user record) with a valid payload. *)
Definition example_calls : list Call :=
  [ {| call_now := example_now; call_generated := example_generated;
       call_session := session_of "u1"; call_json := Some valid_payload |};
    {| call_now := example_now; call_generated := example_generated;
       call_session := session_of "u1"; call_json := Some (JObj []) |};
    {| call_now := example_now; call_generated := example_generated;
       call_session := session_of "u2"; call_json := Some valid_payload |} ].

(** The registration form on step 5 with nothing typed: every text input
    holds the empty string, the two shipping boxes hold their defaults and
    the terms box is not ticked. *)
Definition blank_form_at_step5 : RegisterPage.State := {|
  RegisterPage.isLoading := false;
  RegisterPage.error := "";
  RegisterPage.success := false;
  RegisterPage.currentStep := 5;
  RegisterPage.selectedCategories := [];
  RegisterPage.fields :=
    [ ("managesOwnShipping", JBool true);
      ("needsShippingHelp", JBool false);
      ("businessName", JStr ""); ("businessType", JStr "");
      ("description", JStr ""); ("website", JStr "");
      ("businessEmail", JStr ""); ("contactPersonName", JStr "");
      ("phone", JStr ""); ("addressLine1", JStr "");
      ("addressLine2", JStr ""); ("city", JStr ""); ("state", JStr "");
      ("country", JStr ""); ("postalCode", JStr "");
      ("facebookUrl", JStr ""); ("instagramUrl", JStr "");
      ("linkedinUrl", JStr ""); ("twitterUrl", JStr "");
      ("taxId", JStr ""); ("gstVatNumber", JStr "");
      ("businessLicense", JStr ""); ("yearsInBusiness", JStr "");
      ("bankAccountHolder", JStr ""); ("bankName", JStr "");
      ("accountNumber", JStr ""); ("ifscSwiftCode", JStr "");
      ("bankBranchAddress", JStr ""); ("termsAccepted", JBool false) ];
  RegisterPage.form_errors := [];
|}.

(** The keys of the two schemas. *)
Definition schema_keys : list string :=
  ["businessName"; "businessType"; "description"; "website"; "phone";
   "businessEmail"; "contactPersonName"; "addressLine1"; "addressLine2";
   "city"; "state"; "country"; "postalCode"; "taxId"; "gstVatNumber";
   "businessLicense"; "yearsInBusiness"; "facebookUrl"; "instagramUrl";
   "linkedinUrl"; "twitterUrl"; "bankAccountHolder"; "bankName";
   "accountNumber"; "ifscSwiftCode"; "bankBranchAddress";
   "productCategories"; "managesOwnShipping"; "needsShippingHelp";
   "termsAccepted"].

(** The business types of the enum. *)
Definition business_types : list string :=
  ["INDIVIDUAL"; "SOLE_PROPRIETORSHIP"; "PARTNERSHIP"; "LLC"; "CORPORATION";
   "NONPROFIT"].

(** A click on one of the two navigation buttons of the registration
    form. *)
Inductive Navigation : Type :=
| Previous
| Next.

(** Every input of the step is registered: the form holds a value under
    its name. *)
Definition registered (step : nat) (st : RegisterPage.State) : Prop :=
  ∀ input,
    input ∈ RegisterPage.step_inputs step ->
    is_Some (member (fst input) (RegisterPage.fields st)).

Definition navigate (st : RegisterPage.State) (n : Navigation)
  : RegisterPage.State :=
  match n with
  | Previous => RegisterPage.clickPrevious st
  | Next => RegisterPage.clickNext st
  end.

(** What a user does on the documents page: picks a file (or cancels the
    picker) for a document type, or removes the file of a type. *)
Inductive DocumentEvent : Type :=
| SelectFile (doc_type : string) (selected : option DocumentsPage.File)
| RemoveFile (doc_type : string).

Definition document_event (createObjectURL : DocumentsPage.File -> string)
    (st : DocumentsPage.State) (ev : DocumentEvent) : DocumentsPage.State :=
  match ev with
  | SelectFile doc_type selected =>
      DocumentsPage.handleFileSelect createObjectURL doc_type selected st
  | RemoveFile doc_type => DocumentsPage.removeFile doc_type st
  end.

(** The document types of the uploaded entries, in order. *)
Definition uploaded_types (st : DocumentsPage.State) : list string :=
  DocumentsPage.uploaded_type <$> DocumentsPage.uploadedFiles st.

(** The file passes the checks of [handleFileSelect]. *)
Definition acceptable (f : DocumentsPage.File) : Prop :=
  is_jpeg_png_or_pdf (DocumentsPage.type f)
  ∧ (DocumentsPage.size f <= 5 * MiB)%N.

(** A status change that is not the session becoming authenticated. *)
Definition not_authenticated (s : SellerDashboard.SessionStatus) : Prop :=
  s ≠ SellerDashboard.authenticated.

(** The dashboard's state after a sequence of status changes, each with the
    outcome its fetch would have. *)
Definition dashboard_after
    (changes :
       list (SellerDashboard.SessionStatus * RegisterPage.FetchOutcome))
  : SellerDashboard.State :=
  foldl (fun st c => fst (SellerDashboard.onStatus (fst c) (snd c) st))
    SellerDashboard.initial changes.

(** ** Further inputs for the examples *)

(** The valid payload with two members outside the schema. *)
Definition payload_with_extras : json :=
  example_payload "ABCDE1234F" ["Electronics"]
    [("verificationStatus", JStr "VERIFIED"); ("userId", JStr "u2")].

(** A store with no profile and no user record. *)
Definition orphan_db : Database :=
  {| sellerProfile := []; user := ∅ |}.

(** The registration form on step 5, filled in so that the client schema
    accepts it, with a tax id of two characters. *)
Definition short_tax_id_form : RegisterPage.State := {|
  RegisterPage.isLoading := false;
  RegisterPage.error := "";
  RegisterPage.success := false;
  RegisterPage.currentStep := 5;
  RegisterPage.selectedCategories := ["Electronics"];
  RegisterPage.fields :=
    [ ("managesOwnShipping", JBool true);
      ("needsShippingHelp", JBool false);
      ("businessName", JStr "Acme Traders");
      ("businessType", JStr "LLC");
      ("phone", JStr "+1 555-123-4567");
      ("contactPersonName", JStr "Jo Doe");
      ("addressLine1", JStr "12 Main Street");
      ("city", JStr "Pune");
      ("state", JStr "MH");
      ("country", JStr "India");
      ("postalCode", JStr "411001");
      ("taxId", JStr "A1");
      ("businessLicense", JStr "LIC-0042");
      ("bankAccountHolder", JStr "Jo Doe");
      ("bankName", JStr "State Bank");
      ("accountNumber", JStr "1234567890");
      ("ifscSwiftCode", JStr "SBIN0001234");
      ("termsAccepted", JBool true) ];
  RegisterPage.form_errors := [];
|}.

Definition example_pdf : DocumentsPage.File :=
  {| DocumentsPage.name := "id-front.pdf";
     DocumentsPage.type := "application/pdf";
     DocumentsPage.size := 4 * MiB |}.

Definition example_preview (f : DocumentsPage.File) : string :=
  "blob:" ++ DocumentsPage.name f.

(** * Properties *)

(** ** Strings and the combinators *)

Lemma truthy_string_true (s : string) : s ≠ "" -> truthy_string s = true.
Proof.
  intros Hs. unfold truthy_string.
  destruct (String.eqb_spec s "") as [->|_]; [by destruct Hs | done].
Qed.

Lemma truthy_string_false (s : string) : truthy_string s = false -> s = "".
Proof.
  unfold truthy_string. by destruct (String.eqb_spec s "").
Qed.

Lemma refine_Some {T : Type} (f : T -> bool) (p : Zod.schema T) v x :
  Zod.refine f p v = Some x <-> p v = Some x ∧ f x = true.
Proof.
  unfold Zod.refine. destruct (p v) as [y|]; simpl.
  - destruct (f y) eqn:Hf; split.
    + by intros [= <-].
    + by intros [[= <-] _].
    + done.
    + intros [[= <-] Hx]. congruence.
  - split; [done | by intros [? _]].
Qed.

Lemma string_Some v s : Zod.string_ v = Some s <-> v = Some (JStr s).
Proof.
  unfold Zod.string_. split.
  - destruct v as [[]|]; congruence.
  - by intros ->.
Qed.

(** A schema [.min(n)] accepts what [.min(m)] accepts, for [n <= m]. *)
Lemma min_weaken (n m : nat) v s :
  (n <= m)%nat ->
  Zod.min m Zod.string_ v = Some s -> Zod.min n Zod.string_ v = Some s.
Proof.
  intros Hnm. unfold Zod.min. rewrite !refine_Some.
  intros [Hs Hlen]. split; [done|].
  apply Nat.leb_le in Hlen. apply Nat.leb_le. lia.
Qed.

Lemma min_absent (n : nat) : Zod.min n Zod.string_ None = None.
Proof. reflexivity. Qed.

Lemma mapM_string_Some (items : list json) (l : list string) :
  mapM (fun i => Zod.string_ (Some i)) items = Some l <-> items = JStr <$> l.
Proof.
  rewrite mapM_Some. split.
  - induction 1 as [|i s items l Hi _ IH]; [done|].
    apply string_Some in Hi. injection Hi as ->. by rewrite IH.
  - intros ->. induction l as [|s l IH]; constructor; done.
Qed.

(** [z.array(z.string()).min(1)] accepts exactly the non-empty arrays of
    strings. *)
Lemma array_min_1_Some v (l : list string) :
  Zod.min_items 1 Zod.array_of_string v = Some l
  <-> l ≠ [] ∧ v = Some (JArr (JStr <$> l)).
Proof.
  unfold Zod.min_items. rewrite refine_Some. unfold Zod.array_of_string.
  split.
  - intros [Hv Hlen]. split.
    + intros ->. discriminate Hlen.
    + destruct v as [[| | | |items|]|]; try discriminate Hv.
      apply mapM_string_Some in Hv. by rewrite Hv.
  - intros [Hl ->]. split.
    + by apply mapM_string_Some.
    + destruct l; [done | reflexivity].
Qed.

(** [z.boolean().refine(val => val === true)] accepts [true] only. *)
Lemma terms_Some v (b : bool) :
  Zod.refine (fun val => Bool.eqb val true) Zod.boolean v = Some b
  <-> b = true ∧ v = Some (JBool true).
Proof.
  rewrite refine_Some. unfold Zod.boolean. split.
  - intros [Hv Hb]. destruct b; [|discriminate Hb].
    destruct v as [[]|]; try discriminate Hv. by injection Hv as ->.
  - by intros [-> ->].
Qed.

(** The empty string passes [p.optional().or(z.literal(''))], through one
    alternative or the other. *)
Lemma refined_or_empty (f : string -> bool) :
  Zod.or (Zod.optional (Zod.refine f Zod.string_)) (Zod.literal "")
    (Some (JStr ""))
  = Some (Some "").
Proof.
  unfold Zod.or, Zod.optional, Zod.refine, Zod.literal. simpl.
  by destruct (f "").
Qed.

(** ** Parsing an object *)

Section ZodObjectFacts.

Variables (sh : Shape.t) (payload : json).

Lemma parse_Some_iff (d : Data.t) :
  ZodObject.parse sh payload = Some d <-> parsed_as sh payload d.
Proof.
  unfold ZodObject.parse, parsed_as. split.
  - intros H. destruct d. simpl.
    repeat match type of H with
    | mbind _ ?f = Some _ =>
        destruct f eqn:?; simpl in H; [| discriminate H]
    end.
    injection H; intros; subst. repeat split; reflexivity.
  - intros H. destruct d; simpl in H. destruct_and!.
    repeat match goal with
    | E : ZodObject.field _ _ _ = Some _ |- _ =>
        rewrite E; clear E; simpl
    end.
    reflexivity.
Qed.

Lemma issue_intro {T : Type} (k : string) (p : Zod.schema T) :
  ZodObject.field k p payload = None -> k ∈ ZodObject.issue k p payload.
Proof.
  intros H. unfold ZodObject.issue. rewrite H. apply list_elem_of_here.
Qed.

Lemma issue_elim {T : Type} (k k' : string) (p : Zod.schema T) :
  k ∈ ZodObject.issue k' p payload ->
  k = k' ∧ ZodObject.field k' p payload = None.
Proof.
  unfold ZodObject.issue.
  destruct (ZodObject.field k' p payload); intros H.
  - by apply elem_of_nil in H.
  - by apply list_elem_of_singleton in H.
Qed.

(** A parse that fails has raised an issue under some key. *)
Lemma parse_None_issues :
  ZodObject.parse sh payload = None -> ZodObject.issues sh payload ≠ [].
Proof.
  unfold ZodObject.parse, ZodObject.issues, ZodObject.issue.
  intros H.
  repeat match type of H with
  | mbind _ ?f = None =>
      destruct f eqn:?; simpl in H; [| simpl; discriminate]
  end.
  discriminate H.
Qed.

(** A parse that succeeds has raised none. *)
Lemma parse_Some_issues (d : Data.t) :
  ZodObject.parse sh payload = Some d -> ZodObject.issues sh payload = [].
Proof.
  intros H%parse_Some_iff. unfold parsed_as in H. destruct_and!.
  unfold ZodObject.issues, ZodObject.issue.
  repeat match goal with
  | E : ZodObject.field _ _ _ = Some _ |- _ => rewrite E; clear E
  end.
  reflexivity.
Qed.

Lemma safeParse_success (d : Data.t) :
  ZodObject.safeParse sh payload = ParseSuccess d
  <-> (∃ ms, payload = JObj ms) ∧ parsed_as sh payload d.
Proof.
  rewrite <- parse_Some_iff. unfold ZodObject.safeParse. split.
  - destruct payload; try discriminate.
    destruct (ZodObject.parse sh _); [|discriminate].
    intros [= ->]. eauto.
  - intros [[ms ->] ->]. reflexivity.
Qed.

(** On failure the flattened error names an issue: on the value as a
    whole when it is not an object, under some key otherwise. *)
Lemma safeParse_failure (e : FlattenedError) :
  ZodObject.safeParse sh payload = ParseFailure e ->
  formErrors e ≠ [] ∨ fieldErrors e = ZodObject.issues sh payload
                       ∧ fieldErrors e ≠ [].
Proof.
  pose proof parse_None_issues as Hissues. unfold ZodObject.safeParse.
  destruct payload; try (intros [= <-]; left; discriminate).
  destruct (ZodObject.parse sh _) eqn:Hp; [discriminate|].
  intros [= <-]. right. split; [done|]. by apply Hissues.
Qed.

End ZodObjectFacts.

(** ** Rows and the profile store *)

Lemma member_app {V : Type} (k : string) (l1 l2 : list (string * V)) :
  member k (l1 ++ l2)%list
  = match member k l1 with Some v => Some v | None => member k l2 end.
Proof.
  induction l1 as [|[k' v] l1 IH]; simpl; [done|].
  by destruct (String.eqb k k').
Qed.

Lemma member_select (keys : list string) (r : row) (k : string) :
  NoDup keys ->
  member k (Prisma.select keys r)
  = if bool_decide (k ∈ keys) then member k r else None.
Proof.
  induction keys as [|k0 keys IH]; intros Hnd.
  - reflexivity.
  - apply NoDup_cons in Hnd as [Hk0 Hnd]. specialize (IH Hnd). simpl.
    destruct (String.eqb_spec k k0) as [->|Hne].
    + rewrite bool_decide_eq_true_2 by apply list_elem_of_here.
      destruct (member k0 r) as [v|]; simpl.
      * by rewrite String.eqb_refl.
      * rewrite IH. by rewrite bool_decide_eq_false_2.
    + assert (Hiff : bool_decide (k ∈ k0 :: keys) = bool_decide (k ∈ keys)).
      { apply bool_decide_ext. rewrite elem_of_cons. intuition congruence. }
      rewrite Hiff.
      destruct (member k0 r) as [v|]; simpl; [|done].
      apply String.eqb_neq in Hne. by rewrite Hne.
Qed.

Lemma filter_one {A : Type} (f : A -> bool) (x : A) :
  List.filter f [x] = if f x then [x] else [].
Proof. reflexivity. Qed.

Lemma findUnique_None (userId : string) (db : Database) :
  Prisma.findUnique userId db = None <-> profiles_of userId db = [].
Proof.
  unfold Prisma.findUnique, profiles_of.
  induction (sellerProfile db) as [|r rows IH]; simpl; [done|].
  destruct (Prisma.has_userId userId r); [split; discriminate | exact IH].
Qed.

(** The row [db.sellerProfile.create] builds for [userId] belongs to that
    identity and to no other. *)
Lemma has_userId_created (userId other : string) data now gen db :
  Prisma.has_userId other
    (fst (Prisma.create (RegisterRoute.create_data userId data now) gen db))
  = String.eqb userId other.
Proof. reflexivity. Qed.

Section RegistrationFacts.

Variable rt : Runtime.

(** The store a registration call leaves is the one it found, or that
    store with one row added for the caller, who had none. *)
Lemma POST_store now gen session request_json db :
  let db' := snd (RegisterRoute.POST rt now gen session request_json db) in
  db' = db
  ∨ ∃ userId data,
      authenticated_as userId session
      ∧ Prisma.findUnique userId db = None
      ∧ sellerProfile db'
        = (sellerProfile db ++
           [fst (Prisma.create
                   (RegisterRoute.create_data userId data now) gen db)])%list.
Proof.
  unfold RegisterRoute.POST.
  destruct (session_user_id session) as [userId|] eqn:Hid; [|by left].
  destruct (truthy_string userId) eqn:Ht; [|by left].
  destruct request_json as [payload|]; [|by left].
  destruct (ZodObject.safeParse _ payload) as [data|e]; [|by left].
  destruct (Prisma.findUnique userId db) eqn:Hfind; [by left|].
  right. exists userId, data. split; [|split; [done|]].
  - split; [done|]. intros ->. discriminate Ht.
  - simpl. by destruct (Prisma.user_update _ _ _) eqn:Hup;
      [unfold Prisma.user_update in Hup; simpl in Hup;
       destruct (user db !! userId); simplify_eq|].
Qed.

(** A registration call never changes the profiles of an identity that
    has one. *)
Lemma POST_profiles_kept userId now gen session request_json db :
  profiles_of userId db ≠ [] ->
  profiles_of userId
    (snd (RegisterRoute.POST rt now gen session request_json db))
  = profiles_of userId db.
Proof.
  intros Hhas.
  destruct (POST_store now gen session request_json db)
    as [->|(caller & data & _ & Hnone & Hrows)]; [done|].
  unfold profiles_of. rewrite Hrows, List.filter_app, filter_one.
  rewrite has_userId_created.
  destruct (String.eqb_spec caller userId) as [->|_].
  - by apply findUnique_None in Hnone.
  - by rewrite app_nil_r.
Qed.

(** A registration call keeps every identity at one profile at most. *)
Lemma POST_at_most_one now gen session request_json db :
  (∀ userId, (length (profiles_of userId db) <= 1)%nat) ->
  ∀ userId,
    (length
       (profiles_of userId
          (snd (RegisterRoute.POST rt now gen session request_json db)))
     <= 1)%nat.
Proof.
  intros Hinv userId.
  destruct (POST_store now gen session request_json db)
    as [->|(caller & data & _ & Hnone & Hrows)]; [done|].
  unfold profiles_of.
  rewrite Hrows, List.filter_app, length_app, filter_one.
  rewrite has_userId_created.
  destruct (String.eqb_spec caller userId) as [->|_]; simpl.
  - apply findUnique_None in Hnone. unfold profiles_of in Hnone.
    by rewrite Hnone.
  - specialize (Hinv userId). unfold profiles_of in Hinv. lia.
Qed.

Lemma after_calls_profiles_kept userId calls db :
  profiles_of userId db ≠ [] ->
  profiles_of userId (after_calls rt calls db) = profiles_of userId db.
Proof.
  revert db. induction calls as [|c calls IH]; intros db Hhas; [done|].
  simpl. rewrite IH; rewrite POST_profiles_kept; done.
Qed.

Lemma after_calls_at_most_one calls db :
  (∀ userId, (length (profiles_of userId db) <= 1)%nat) ->
  ∀ userId,
    (length (profiles_of userId (after_calls rt calls db)) <= 1)%nat.
Proof.
  revert db. induction calls as [|c calls IH]; intros db Hinv; [done|].
  simpl. apply IH. by apply POST_at_most_one.
Qed.

(** What a call does for an identity without a profile, a user record
    and a payload that parses. *)
Lemma POST_created now gen session userId payload data role db :
  authenticated_as userId session ->
  Prisma.findUnique userId db = None ->
  user db !! userId = Some role ->
  ZodObject.safeParse (RegisterRoute.sellerRegistrationSchema rt) payload
  = ParseSuccess data ->
  let r :=
    fst (Prisma.create (RegisterRoute.create_data userId data now) gen db) in
  RegisterRoute.POST rt now gen session (Some payload) db
  = ({| body :=
          {| message := Some "Seller profile created successfully";
             errors := None;
             seller :=
               Some (Prisma.select RegisterRoute.created_selection r) |};
        status := 201 |},
     {| sellerProfile := (sellerProfile db ++ [r])%list;
        user := <[userId := "SELLER"]> (user db) |}).
Proof.
  intros [Hid Hne] Hfind Huser Hparse. unfold RegisterRoute.POST.
  rewrite Hid, (truthy_string_true _ Hne), Hparse, Hfind. simpl.
  unfold Prisma.user_update. simpl. by rewrite Huser.
Qed.

(** What a call does when the payload does not parse. *)
Lemma POST_invalid now gen session userId payload e db :
  authenticated_as userId session ->
  ZodObject.safeParse (RegisterRoute.sellerRegistrationSchema rt) payload
  = ParseFailure e ->
  RegisterRoute.POST rt now gen session (Some payload) db
  = ({| body := {| message := Some "Invalid input"; errors := Some e;
                   seller := None |};
        status := 400 |}, db).
Proof.
  intros [Hid Hne] Hparse. unfold RegisterRoute.POST.
  by rewrite Hid, (truthy_string_true _ Hne), Hparse.
Qed.

End RegistrationFacts.

(** ** The registration endpoint *)

(** C1, as the code has it.  For an identity that already has a profile, a
    registration call leaves the store as it found it whatever the request;
    it is answered 409 when the payload passes validation, which runs
    first, and 400 when it does not (500 when the body cannot be read).
    So after any sequence of registration calls, by whatever identities,
    the profiles of that identity are the ones it had: exactly one if it
    had one. *)
Theorem C1_existing_profile_kept_conflict_when_valid
    (rt : Runtime) (userId : string) (db : Database) :
  profiles_of userId db ≠ [] ->
  (∀ now gen session request_json,
     authenticated_as userId session ->
     let result := RegisterRoute.POST rt now gen session request_json db in
     snd result = db
     ∧ match request_json with
       | None => status (fst result) = 500
       | Some payload =>
           match
             ZodObject.safeParse (RegisterRoute.sellerRegistrationSchema rt)
               payload
           with
           | ParseSuccess _ =>
               fst result
               = {| body := message_only "You already have a seller profile";
                    status := 409 |}
           | ParseFailure _ => status (fst result) = 400
           end
       end)
  ∧ (∀ calls,
       profiles_of userId (after_calls rt calls db) = profiles_of userId db)
  ∧ (length (profiles_of userId db) = 1%nat ->
     ∀ calls, length (profiles_of userId (after_calls rt calls db)) = 1%nat).
Proof.
  intros Hhas. split; [|split].
  - intros now gen session request_json [Hid Hne]. simpl.
    unfold RegisterRoute.POST.
    rewrite Hid, (truthy_string_true _ Hne).
    destruct request_json as [payload|]; [|done].
    destruct (ZodObject.safeParse _ payload) as [data|e]; [|done].
    destruct (Prisma.findUnique userId db) as [existing|] eqn:Hfind; [done|].
    by apply findUnique_None in Hfind.
  - intros calls. by apply after_calls_profiles_kept.
  - intros Hone calls. by rewrite after_calls_profiles_kept.
Qed.

(** The claim of C1 as worded fails: the caller already has a profile, and
    the call is answered 400, not 409, because its payload is invalid. *)
Lemma C1_invalid_payload_answered_400 :
  authenticated_as "u1" (session_of "u1")
  ∧ length (profiles_of "u1" registered_db) = 1%nat
  ∧ status
      (fst (RegisterRoute.POST inert_runtime example_now example_generated
              (session_of "u1") (Some (JObj [])) registered_db))
    = 400%nat.
Proof. split; [split; [reflexivity | discriminate] |]. by vm_compute. Qed.

(** C1 at the store where u1 has registered, followed by the three example
    calls. *)
Lemma C1_witness :
  length (profiles_of "u1" (after_calls inert_runtime example_calls registered_db))
  = 1%nat.
Proof.
  refine (proj2 (proj2 (C1_existing_profile_kept_conflict_when_valid
                          inert_runtime "u1" registered_db _))
            _ example_calls).
  - vm_compute. discriminate.
  - reflexivity.
Defined.

(** Finds the key's entry in [ZodObject.issues], given that its schema
    failed. *)
Ltac find_issue :=
  first
    [ apply issue_intro; assumption
    | apply elem_of_app;
      first [ left; apply issue_intro; assumption | right; find_issue ] ].

Section MissingField.

Variables (rt : Runtime) (payload : json).

Lemma issue_fails_parse (sh : Shape.t) (k : string) :
  k ∈ ZodObject.issues sh payload -> ZodObject.parse sh payload = None.
Proof.
  intros Hk. destruct (ZodObject.parse sh payload) as [d|] eqn:Hp; [|done].
  apply parse_Some_issues in Hp. rewrite Hp in Hk.
  by apply elem_of_nil in Hk.
Qed.

(** A missing required field makes its key's schema raise an issue. *)
Lemma missing_field_issue (k : string) :
  missing payload k ->
  k ∈ ZodObject.issues (RegisterRoute.sellerRegistrationSchema rt) payload.
Proof.
  intros Hmiss. unfold ZodObject.issues.
  inversion Hmiss as [k' Hk Hprop| Hcat | Hterms]; subst.
  - unfold required_strings in Hk.
    repeat (apply elem_of_cons in Hk as [->|Hk]);
      [..|by apply elem_of_nil in Hk];
      match type of Hprop with
      | prop ?key _ = None =>
          assert (Hf : ∀ n, ZodObject.field key (Zod.min n Zod.string_)
                              payload = None)
            by (intros n; unfold ZodObject.field; by rewrite Hprop);
          assert (He : ∀ vs, ZodObject.field key (Zod.enum vs) payload
                             = None)
            by (intros vs; unfold ZodObject.field; by rewrite Hprop);
          assert (Hr : ∀ re, ZodObject.field key
                               (Zod.regex re Zod.string_) payload = None)
            by (intros re; unfold ZodObject.field; by rewrite Hprop)
      end;
      first [ pose proof (Hf 2%nat); pose proof (Hf 3%nat);
              pose proof (Hf 5%nat); pose proof (Hf 8%nat);
              pose proof (He ["INDIVIDUAL"; "SOLE_PROPRIETORSHIP";
                              "PARTNERSHIP"; "LLC"; "CORPORATION";
                              "NONPROFIT"]);
              pose proof (Hr phone_regex);
              find_issue ].
  - assert (Hf : ZodObject.field "productCategories"
                   (Zod.min_items 1 Zod.array_of_string) payload = None).
    { destruct (ZodObject.field _ _ payload) as [l|] eqn:Hf; [|done].
      unfold ZodObject.field in Hf.
      apply array_min_1_Some in Hf as [Hl Hf].
      destruct l as [|c l]; [done|]. by apply Hcat in Hf. }
    find_issue.
  - assert (Hf : ZodObject.field "termsAccepted"
                   (Zod.refine (fun val => Bool.eqb val true) Zod.boolean)
                   payload = None).
    { destruct (ZodObject.field _ _ payload) as [b|] eqn:Hf; [|done].
      unfold ZodObject.field in Hf.
      apply terms_Some in Hf as [_ Hf]. by apply Hterms in Hf. }
    find_issue.
Qed.

End MissingField.

(** C2.  An authenticated request whose payload lacks a required field is
    answered 400 "Invalid input" with the flattened zod error, which names
    an issue — on the value as a whole when the payload is not an object,
    under the key of the missing field otherwise — and the store is left as
    it was: no profile row is created. *)
Theorem C2_missing_required_field_is_invalid_input
    (rt : Runtime) (now : Z) (gen : Generated) (session : option Session)
    (userId : string) (payload : json) (k : string) (db : Database) :
  authenticated_as userId session ->
  missing payload k ->
  ∃ e,
    RegisterRoute.POST rt now gen session (Some payload) db
    = ({| body := {| message := Some "Invalid input"; errors := Some e;
                     seller := None |};
          status := 400 |}, db)
    ∧ (formErrors e ≠ [] ∨ k ∈ fieldErrors e).
Proof.
  intros Hauth Hmiss.
  pose proof (missing_field_issue rt payload k Hmiss) as Hk.
  pose proof (issue_fails_parse payload _ k Hk) as Hparse.
  destruct (ZodObject.safeParse (RegisterRoute.sellerRegistrationSchema rt)
              payload) as [d|e] eqn:Hsafe.
  - apply safeParse_success in Hsafe as [_ Hd].
    apply parse_Some_iff in Hd. congruence.
  - exists e. split; [by eapply POST_invalid|].
    destruct (safeParse_failure _ _ _ Hsafe) as [Hform|[Hfield _]];
      [by left | right; by rewrite Hfield].
Qed.

(** C2 at a payload that has a business name and the terms accepted and
    no tax id. *)
Lemma C2_witness :
  ∃ e,
    RegisterRoute.POST inert_runtime example_now example_generated
      (session_of "u1")
      (Some (JObj [("businessName", JStr "Acme Traders");
                   ("termsAccepted", JBool true)]))
      fresh_db
    = ({| body := {| message := Some "Invalid input"; errors := Some e;
                     seller := None |};
          status := 400 |}, fresh_db)
    ∧ (formErrors e ≠ [] ∨ "taxId" ∈ fieldErrors e).
Proof.
  apply (C2_missing_required_field_is_invalid_input
           inert_runtime example_now example_generated (session_of "u1")
           "u1" _ "taxId" fresh_db).
  - split; [reflexivity | discriminate].
  - apply missing_string; [|reflexivity].
    apply (bool_decide_unpack _). vm_compute. exact I.
Defined.

(** ** What a successful registration stores and returns *)

Lemma string_or_null_spec (v : option string) :
  RegisterRoute.string_or_null v = non_empty_or_null v.
Proof. by destruct v as [[|c s]|]. Qed.

Lemma number_or_null_spec (v : option float) :
  (∀ x, v = Some x -> is_nan x = false) ->
  RegisterRoute.number_or_null v = non_zero_or_null v.
Proof.
  destruct v as [x|]; [|done]. intros Hnan.
  unfold RegisterRoute.number_or_null, non_zero_or_null, truthy_number.
  rewrite (Hnan x eq_refl). by destruct (PrimFloat.eqb x 0).
Qed.

Section Created.

Variables (rt : Runtime) (payload : json) (data : Data.t).

Hypothesis Hvalid :
  ZodObject.safeParse (RegisterRoute.sellerRegistrationSchema rt) payload
  = ParseSuccess data.

(** Validation lets through [termsAccepted = true] only. *)
Lemma validated_terms : Data.termsAccepted data = true.
Proof.
  apply safeParse_success in Hvalid as [_ Hd].
  unfold parsed_as in Hd. destruct_and!.
  match goal with
  | H : ZodObject.field "termsAccepted" _ _ = _ |- _ =>
      unfold ZodObject.field in H; simpl in H;
      by apply terms_Some in H as [? _]
  end.
Qed.

(** Validation lets through no yearsInBusiness that is not a number. *)
Lemma validated_years_not_nan (x : float) :
  Data.yearsInBusiness data = Some x -> is_nan x = false.
Proof.
  intros Hx. apply safeParse_success in Hvalid as [_ Hd].
  unfold parsed_as in Hd. destruct_and!.
  match goal with
  | H : ZodObject.field "yearsInBusiness" _ _ = _ |- _ =>
      unfold ZodObject.field in H; rewrite Hx in H;
      cbn [RegisterRoute.sellerRegistrationSchema Shape.yearsInBusiness] in H;
      unfold Zod.optional in H;
      destruct (prop "yearsInBusiness" payload) as [v|]; [|discriminate H];
      destruct (Zod.max_number _ _ (Some v)) as [y|] eqn:Hy;
        [|discriminate H];
      injection H as ->
  end.
  apply refine_Some in Hy as [Hy _]. apply refine_Some in Hy as [Hy _].
  unfold Zod.coerce_number in Hy.
  destruct (is_nan (Number rt (Some v))) eqn:Hnan; [discriminate Hy|].
  by injection Hy as <-.
Qed.

(** An optional field submitted as the empty string is stored as null. *)
Lemma empty_optional_is_null (userId : string) (now : Z) (k : string) :
  k ∈ optional_keys ->
  prop k payload = Some (JStr "") ->
  member k (RegisterRoute.create_data userId data now) = Some CNull.
Proof.
  intros Hk Hprop.
  apply safeParse_success in Hvalid as [_ Hd].
  unfold parsed_as in Hd. destruct_and!.
  unfold optional_keys in Hk.
  repeat (apply elem_of_cons in Hk as [->|Hk]);
    [..|by apply elem_of_nil in Hk];
    match type of Hprop with
    | prop ?key _ = _ =>
        match goal with
        | H : ZodObject.field key _ _ = _ |- _ =>
            unfold ZodObject.field in H; rewrite Hprop in H;
            cbn in H; unfold Zod.url, Zod.email in H;
            rewrite ?refined_or_empty in H; clear -H
        end
    end;
    simplify_eq; cbn;
    match goal with
    | H : Some _ = _ |- _ => by rewrite <- H
    | _ => idtac
    end.
Qed.

End Created.

(** C3, as the code has it.  For an authenticated identity that has a user
    record and no profile, and a payload that passes validation, the
    endpoint answers 201 with exactly the members id, businessName,
    businessType, verificationStatus and createdAt of the new row — none
    of the tax and payment columns — adds one row and sets the identity's
    role to SELLER.  The row belongs to the identity, has
    verificationStatus PENDING, has termsAcceptedAt set to the current time
    when termsAccepted is true and to null otherwise (validation leaves
    only the first case), and has null under every optional key that was
    submitted as the empty string.  Column by column the row is: the
    identity, the validated required members as they are, each optional
    string as it is unless absent or empty and then null, yearsInBusiness
    as it is unless absent or zero and then null, the categories and the
    three flags, the time of acceptance, PENDING, and the columns the
    store generates. *)
Theorem C3_successful_registration
    (rt : Runtime) (now : Z) (gen : Generated) (session : option Session)
    (userId : string) (payload : json) (data : Data.t) (role : string)
    (db : Database) :
  authenticated_as userId session ->
  Prisma.findUnique userId db = None ->
  user db !! userId = Some role ->
  ZodObject.safeParse (RegisterRoute.sellerRegistrationSchema rt) payload
  = ParseSuccess data ->
  ∃ r projection,
    RegisterRoute.POST rt now gen session (Some payload) db
    = ({| body :=
            {| message := Some "Seller profile created successfully";
               errors := None;
               seller := Some projection |};
          status := 201 |},
       {| sellerProfile := (sellerProfile db ++ [r])%list;
          user := <[userId := "SELLER"]> (user db) |})
    ∧ projection
      = [ ("id", CStr (new_id gen));
          ("businessName", CStr (Data.businessName data));
          ("businessType", CStr (Data.businessType data));
          ("verificationStatus", CStr "PENDING");
          ("createdAt", CDate (new_createdAt gen)) ]
    ∧ (∀ k, k ∈ payment_and_tax_keys -> member k projection = None)
    ∧ member "userId" r = Some (CStr userId)
    ∧ member "verificationStatus" r = Some (CStr "PENDING")
    ∧ member "termsAcceptedAt" r
      = Some (if Data.termsAccepted data then CDate now else CNull)
    ∧ member "termsAcceptedAt" r = Some (CDate now)
    ∧ (∀ k, k ∈ optional_keys ->
            prop k payload = Some (JStr "") -> member k r = Some CNull)
    ∧ r
      = [ ("userId", CStr userId);
          ("businessName", CStr (Data.businessName data));
          ("businessType", CStr (Data.businessType data));
          ("description", non_empty_or_null (Data.description data));
          ("website", non_empty_or_null (Data.website data));
          ("phone", CStr (Data.phone data));
          ("businessEmail", non_empty_or_null (Data.businessEmail data));
          ("contactPersonName", CStr (Data.contactPersonName data));
          ("addressLine1", CStr (Data.addressLine1 data));
          ("addressLine2", non_empty_or_null (Data.addressLine2 data));
          ("city", CStr (Data.city data));
          ("state", CStr (Data.state data));
          ("country", CStr (Data.country data));
          ("postalCode", CStr (Data.postalCode data));
          ("taxId", CStr (Data.taxId data));
          ("gstVatNumber", non_empty_or_null (Data.gstVatNumber data));
          ("businessLicense", CStr (Data.businessLicense data));
          ("yearsInBusiness", non_zero_or_null (Data.yearsInBusiness data));
          ("facebookUrl", non_empty_or_null (Data.facebookUrl data));
          ("instagramUrl", non_empty_or_null (Data.instagramUrl data));
          ("linkedinUrl", non_empty_or_null (Data.linkedinUrl data));
          ("twitterUrl", non_empty_or_null (Data.twitterUrl data));
          ("bankAccountHolder", CStr (Data.bankAccountHolder data));
          ("bankName", CStr (Data.bankName data));
          ("accountNumber", CStr (Data.accountNumber data));
          ("ifscSwiftCode", CStr (Data.ifscSwiftCode data));
          ("bankBranchAddress",
            non_empty_or_null (Data.bankBranchAddress data));
          ("productCategories", CStrings (Data.productCategories data));
          ("managesOwnShipping", CBool (Data.managesOwnShipping data));
          ("needsShippingHelp", CBool (Data.needsShippingHelp data));
          ("termsAccepted", CBool true);
          ("termsAcceptedAt", CDate now);
          ("verificationStatus", CStr "PENDING");
          ("id", CStr (new_id gen));
          ("averageRating", CNum (new_averageRating gen));
          ("totalRatings", CNum (new_totalRatings gen));
          ("totalSales", CNum (new_totalSales gen));
          ("createdAt", CDate (new_createdAt gen));
          ("updatedAt", CDate (new_updatedAt gen)) ].
Proof.
  intros Hauth Hfind Huser Hvalid.
  eexists _, _. split; [by eapply POST_created|].
  split; [reflexivity|].
  split; [|split; [|split; [|split; [|split; [|split]]]]].
  - intros k Hk. unfold payment_and_tax_keys in Hk.
    repeat (apply elem_of_cons in Hk as [->|Hk]);
      [..|by apply elem_of_nil in Hk]; reflexivity.
  - reflexivity.
  - reflexivity.
  - reflexivity.
  - cbn. by rewrite (validated_terms rt payload data Hvalid).
  - intros k Hk Hprop. unfold Prisma.create, fst.
    rewrite member_app.
    by rewrite (empty_optional_is_null rt payload data Hvalid userId now k).
  - cbn [Prisma.create fst RegisterRoute.create_data app].
    rewrite !string_or_null_spec.
    rewrite (number_or_null_spec (Data.yearsInBusiness data))
      by (intros x Hx;
          exact (validated_years_not_nan rt payload data Hvalid x Hx)).
    by rewrite (validated_terms rt payload data Hvalid).
Qed.

(** The claim of C3 as worded fails: an authenticated identity with no
    profile sends a valid payload and, having no user record, is answered
    500; the role update threw and no role is set. *)
Lemma C3_without_user_record_answered_500 :
  authenticated_as "u1" (session_of "u1")
  ∧ Prisma.findUnique "u1" orphan_db = None
  ∧ (∃ data,
       ZodObject.safeParse (RegisterRoute.sellerRegistrationSchema inert_runtime)
         valid_payload
       = ParseSuccess data)
  ∧ fst (RegisterRoute.POST inert_runtime example_now example_generated
           (session_of "u1") (Some valid_payload) orphan_db)
    = {| body := message_only "Internal server error"; status := 500 |}
  ∧ user
      (snd (RegisterRoute.POST inert_runtime example_now example_generated
              (session_of "u1") (Some valid_payload) orphan_db))
    !! "u1"
    = None.
Proof.
  split; [split; [reflexivity | discriminate]|].
  split; [reflexivity|]. split; [eexists; by vm_compute|].
  split; by vm_compute.
Qed.

(** C3 at a first registration whose website and yearsInBusiness are
    empty strings. *)
Lemma C3_witness :
  ∃ r projection,
    RegisterRoute.POST inert_runtime example_now example_generated
      (session_of "u1")
      (Some (example_payload "ABCDE1234F" ["Electronics"]
               [("website", JStr ""); ("yearsInBusiness", JStr "")]))
      fresh_db
    = ({| body :=
            {| message := Some "Seller profile created successfully";
               errors := None;
               seller := Some projection |};
          status := 201 |},
       {| sellerProfile := [r]; user := {[ "u1" := "SELLER" ]} |})
    ∧ member "website" r = Some CNull
    ∧ member "yearsInBusiness" r = Some CNull
    ∧ member "verificationStatus" r = Some (CStr "PENDING")
    ∧ member "termsAcceptedAt" r = Some (CDate example_now)
    ∧ member "taxId" projection = None.
Proof.
  destruct (C3_successful_registration inert_runtime example_now
              example_generated (session_of "u1") "u1"
              (example_payload "ABCDE1234F" ["Electronics"]
                 [("website", JStr ""); ("yearsInBusiness", JStr "")])
              (Data.mk "Acme Traders" "LLC" None (Some "") "+1 555-123-4567"
                 None "Jo Doe" "12 Main Street" None "Pune" "MH" "India"
                 "411001" "ABCDE1234F" None "LIC-0042" (Some 0%float) None
                 None None None "Jo Doe" "State Bank" "1234567890"
                 "SBIN0001234" None ["Electronics"] true false true)
              "USER" fresh_db)
    as (r & projection & HPOST & Hproj & Hpay & _ & Hstatus & _ & Hterms & Hopt
        & _).
  - split; [reflexivity | discriminate].
  - reflexivity.
  - reflexivity.
  - vm_compute. reflexivity.
  - exists r, projection. split; [|split; [|split; [|split; [|split]]]].
    + rewrite HPOST. f_equal.
    + apply Hopt; [|reflexivity]. apply (bool_decide_unpack _). vm_compute. exact I.
    + apply Hopt; [|reflexivity]. apply (bool_decide_unpack _). vm_compute. exact I.
    + exact Hstatus.
    + exact Hterms.
    + apply Hpay. apply (bool_decide_unpack _). vm_compute. exact I.
Defined.

(** C10.  When the validated payload has yearsInBusiness equal to 0, which
    the schema's range admits, the row that a successful registration
    stores has null under yearsInBusiness: [0 || null] is [null]. *)
Theorem C10_zero_years_in_business_stored_as_null
    (rt : Runtime) (now : Z) (gen : Generated) (session : option Session)
    (userId : string) (payload : json) (data : Data.t) (role : string)
    (x : float) (db : Database) :
  authenticated_as userId session ->
  Prisma.findUnique userId db = None ->
  user db !! userId = Some role ->
  ZodObject.safeParse (RegisterRoute.sellerRegistrationSchema rt) payload
  = ParseSuccess data ->
  Data.yearsInBusiness data = Some x ->
  PrimFloat.eqb x 0%float = true ->
  ∃ r,
    let result := RegisterRoute.POST rt now gen session (Some payload) db in
    status (fst result) = 201%nat
    ∧ sellerProfile (snd result) = (sellerProfile db ++ [r])%list
    ∧ member "yearsInBusiness" r = Some CNull.
Proof.
  intros Hauth Hfind Huser Hvalid Hyears Hzero.
  eexists. simpl.
  rewrite (POST_created rt now gen session userId payload data role db)
    by done.
  split; [reflexivity|]. split; [reflexivity|].
  cbn. rewrite Hyears. unfold RegisterRoute.number_or_null, truthy_number.
  by rewrite Hzero.
Qed.

(** C10 at a first registration with yearsInBusiness 0. *)
Lemma C10_witness :
  ∃ r,
    let result :=
      RegisterRoute.POST inert_runtime example_now example_generated
        (session_of "u1")
        (Some (example_payload "ABCDE1234F" ["Electronics"]
                 [("yearsInBusiness", JNum 0)]))
        fresh_db in
    status (fst result) = 201%nat
    ∧ sellerProfile (snd result) = (sellerProfile fresh_db ++ [r])%list
    ∧ member "yearsInBusiness" r = Some CNull.
Proof.
  apply (C10_zero_years_in_business_stored_as_null inert_runtime example_now
           example_generated (session_of "u1") "u1" _
           (Data.mk "Acme Traders" "LLC" None None "+1 555-123-4567"
              None "Jo Doe" "12 Main Street" None "Pune" "MH" "India"
              "411001" "ABCDE1234F" None "LIC-0042" (Some 0%float) None
              None None None "Jo Doe" "State Bank" "1234567890"
              "SBIN0001234" None ["Electronics"] true false true)
           "USER" 0%float fresh_db).
  - split; [reflexivity | discriminate].
  - reflexivity.
  - reflexivity.
  - vm_compute. reflexivity.
  - reflexivity.
  - reflexivity.
Defined.

(** C5, as the code has it.  The endpoint's schema checks productCategories
    for being an array of strings with at least one element and for
    nothing else: the key parses, to the list of its strings, exactly when
    the payload holds such an array, and validation raises an issue under
    productCategories exactly when it does not.  The catalog plays no
    part. *)
Theorem C5_categories_any_non_empty_array_of_strings
    (rt : Runtime) (payload : json) :
  (∀ categories,
     ZodObject.field "productCategories"
       (Shape.productCategories (RegisterRoute.sellerRegistrationSchema rt))
       payload
     = Some categories
     <-> categories ≠ []
         ∧ prop "productCategories" payload
           = Some (JArr (JStr <$> categories)))
  ∧ ("productCategories"
       ∈ ZodObject.issues (RegisterRoute.sellerRegistrationSchema rt) payload
     <-> ¬ ∃ categories,
           categories ≠ []
           ∧ prop "productCategories" payload
             = Some (JArr (JStr <$> categories))).
Proof.
  assert (Hfield : ∀ categories,
            ZodObject.field "productCategories"
              (Zod.min_items 1 Zod.array_of_string) payload
            = Some categories
            <-> categories ≠ []
                ∧ prop "productCategories" payload
                  = Some (JArr (JStr <$> categories))).
  { intros categories. unfold ZodObject.field. apply array_min_1_Some. }
  split; [exact Hfield|]. split.
  - intros Hin (categories & Hne & Hprop).
    assert (Hsome : ZodObject.field "productCategories"
                      (Zod.min_items 1 Zod.array_of_string) payload
                    = Some categories) by by apply Hfield.
    unfold ZodObject.issues in Hin.
    repeat (apply elem_of_app in Hin as [Hin|Hin];
            [apply issue_elim in Hin as [Hkey Hnone];
             first [discriminate Hkey | simpl in Hnone; congruence]|]).
    apply issue_elim in Hin as [Hkey _]. discriminate Hkey.
  - intros Hno.
    assert (Hnone : ZodObject.field "productCategories"
                      (Zod.min_items 1 Zod.array_of_string) payload = None).
    { destruct (ZodObject.field _ _ payload) as [l|] eqn:Hl; [|done].
      destruct Hno. exists l. by apply Hfield. }
    unfold ZodObject.issues. find_issue.
Qed.

(** The claim of C5 as worded fails: a payload whose only category is not
    in the catalog passes validation and the registration is answered
    201. *)
Lemma C5_category_outside_catalog_accepted :
  ("Vintage Maps" ∉ RegisterPage.productCategories)
  ∧ (∃ data,
       ZodObject.safeParse (RegisterRoute.sellerRegistrationSchema inert_runtime)
         (example_payload "ABCDE1234F" ["Vintage Maps"] [])
       = ParseSuccess data
       ∧ Data.productCategories data = ["Vintage Maps"])
  ∧ status
      (fst (RegisterRoute.POST inert_runtime example_now example_generated
              (session_of "u1")
              (Some (example_payload "ABCDE1234F" ["Vintage Maps"] []))
              fresh_db))
    = 201%nat.
Proof.
  split; [|split].
  - apply (bool_decide_unpack _). by vm_compute.
  - eexists. split; [by vm_compute | reflexivity].
  - by vm_compute.
Qed.

(** ** The two schemas *)

Lemma min_Some (n : nat) v s :
  Zod.min n Zod.string_ v = Some s
  <-> v = Some (JStr s) ∧ (n <= String.length s)%nat.
Proof.
  unfold Zod.min. rewrite refine_Some, string_Some.
  by rewrite Nat.leb_le.
Qed.

Section TwoSchemas.

Variables (rt : Runtime) (payload : json) (d : Data.t).

Lemma server_parse_iff_client_parse :
  parsed_as (RegisterRoute.sellerRegistrationSchema rt) payload d
  <-> parsed_as (RegisterPage.sellerRegistrationSchema rt) payload d
      ∧ server_lengths d.
Proof.
  unfold parsed_as, server_lengths, ZodObject.field. simpl. split.
  - intros H. destruct_and!.
    repeat match goal with
    | H : Zod.min _ Zod.string_ _ = Some _ |- _ =>
        apply min_Some in H as [? ?]
    end.
    repeat split; try assumption; try (apply min_Some; split; [done|lia]).
  - intros [H Hlen]. destruct_and!.
    repeat match goal with
    | H : Zod.min _ Zod.string_ _ = Some _ |- _ =>
        apply min_Some in H as [? ?]
    end.
    repeat split; try assumption; apply min_Some; by split.
Qed.

End TwoSchemas.

(** C4, as the code has it.  The server schema accepts a payload exactly
    when the client schema accepts it and, in addition, taxId,
    businessLicense, bankAccountHolder, bankName, accountNumber and
    ifscSwiftCode have at least 5, 3, 2, 2, 8 and 8 characters (the client
    asks for one); the parsed data are then the same.  So what the server
    accepts the client accepts, and not conversely. *)
Theorem C4_server_accepts_iff_client_accepts_and_lengths
    (rt : Runtime) (payload : json) (d : Data.t) :
  ZodObject.safeParse (RegisterRoute.sellerRegistrationSchema rt) payload
  = ParseSuccess d
  <-> ZodObject.safeParse (RegisterPage.sellerRegistrationSchema rt) payload
      = ParseSuccess d
      ∧ server_lengths d.
Proof.
  rewrite !safeParse_success, server_parse_iff_client_parse. tauto.
Qed.

(** The claim of C4 as worded fails: a payload whose taxId has two
    characters passes the client schema and not the server schema. *)
Lemma C4_client_accepts_server_rejects :
  (∃ d,
     ZodObject.safeParse (RegisterPage.sellerRegistrationSchema inert_runtime)
       (example_payload "A1" ["Electronics"] [])
     = ParseSuccess d)
  ∧ ZodObject.safeParse (RegisterRoute.sellerRegistrationSchema inert_runtime)
      (example_payload "A1" ["Electronics"] [])
    = ParseFailure {| formErrors := []; fieldErrors := ["taxId"] |}.
Proof. split; [eexists|]; by vm_compute. Qed.

(** ** The profile query endpoint *)

Lemma select_keys (keys : list string) (r : row) :
  (∀ k, k ∈ keys -> is_Some (member k r)) ->
  fst <$> Prisma.select keys r = keys.
Proof.
  induction keys as [|k keys IH]; intros Hall; [done|].
  cbn [Prisma.select].
  destruct (Hall k) as [v Hv]; [apply list_elem_of_here|].
  rewrite Hv, fmap_cons. f_equal. apply IH.
  intros k' Hk'. apply Hall. by apply list_elem_of_further.
Qed.

(** A row the registration endpoint creates has every column the query
    selects. *)
Lemma created_row_has_profile_columns userId data now gen db (k : string) :
  k ∈ ProfileRoute.profile_selection ->
  is_Some
    (member k
       (fst (Prisma.create (RegisterRoute.create_data userId data now)
               gen db))).
Proof.
  intros Hk. unfold ProfileRoute.profile_selection in Hk.
  repeat (apply elem_of_cons in Hk as [->|Hk]);
    [..|by apply elem_of_nil in Hk]; by eexists.
Qed.

Lemma unauthenticated_guard (session : option Session) :
  unauthenticated session ->
  session_user_id session = None
  ∨ ∃ userId, session_user_id session = Some userId
              ∧ truthy_string userId = false.
Proof.
  intros Hno. destruct (session_user_id session) as [userId|] eqn:Hid;
    [right | by left].
  exists userId. split; [done|].
  destruct (truthy_string userId) eqn:Ht; [|done].
  destruct (Hno userId). split; [done|]. intros ->. discriminate Ht.
Qed.

(** C9.  The profile query leaves the store as it found it in every case.
    It answers 401 to a request without an authenticated identity, 404 to
    an identity without a stored profile, and otherwise 200 with the
    selection of the identity's row: the row's members under id,
    businessName, businessType, description, website, phone,
    verificationStatus, averageRating, totalRatings, totalSales, createdAt
    and updatedAt, and nothing under any other key — exactly those twelve
    keys when the row has them all. *)
Theorem C9_profile_query (session : option Session) (db : Database) :
  snd (ProfileRoute.GET session db) = db
  ∧ (unauthenticated session ->
     fst (ProfileRoute.GET session db)
     = {| body := message_only "Authentication required"; status := 401 |})
  ∧ (∀ userId,
       authenticated_as userId session ->
       match Prisma.findUnique userId db with
       | None =>
           fst (ProfileRoute.GET session db)
           = {| body := message_only "Seller profile not found";
                status := 404 |}
       | Some r =>
           ∃ projection,
             fst (ProfileRoute.GET session db)
             = {| body := {| message := None; errors := None;
                             seller := Some projection |};
                  status := 200 |}
             ∧ (∀ k, member k projection
                     = if bool_decide (k ∈ ProfileRoute.profile_selection)
                       then member k r else None)
             ∧ ((∀ k, k ∈ ProfileRoute.profile_selection ->
                      is_Some (member k r)) ->
                fst <$> projection
                = ["id"; "businessName"; "businessType"; "description";
                   "website"; "phone"; "verificationStatus"; "averageRating";
                   "totalRatings"; "totalSales"; "createdAt"; "updatedAt"])
       end).
Proof.
  split; [|split].
  - unfold ProfileRoute.GET.
    destruct (session_user_id session) as [userId|]; [|done].
    destruct (truthy_string userId); [|done].
    by destruct (Prisma.findUnique userId db).
  - intros Hno. unfold ProfileRoute.GET.
    destruct (unauthenticated_guard session Hno) as [->|(u & -> & ->)]; done.
  - intros userId [Hid Hne]. unfold ProfileRoute.GET.
    rewrite Hid, (truthy_string_true _ Hne).
    destruct (Prisma.findUnique userId db) as [r|]; [|done].
    exists (Prisma.select ProfileRoute.profile_selection r).
    split; [reflexivity|]. split.
    + intros k. apply member_select.
      apply (bool_decide_unpack _). by vm_compute.
    + intros Hall. by apply select_keys.
Qed.

(** The three answers of C9 on concrete stores. *)
Example GET_examples :
  status (fst (ProfileRoute.GET None registered_db)) = 401%nat
  ∧ status (fst (ProfileRoute.GET (session_of "") registered_db)) = 401%nat
  ∧ status (fst (ProfileRoute.GET (session_of "u1") fresh_db)) = 404%nat
  ∧ fst (ProfileRoute.GET (session_of "u1") registered_db)
    = {| body :=
           {| message := None; errors := None;
              seller :=
                Some [ ("id", CStr "sp_1");
                       ("businessName", CStr "Acme Traders");
                       ("businessType", CStr "LLC");
                       ("description", CNull);
                       ("website", CNull);
                       ("phone", CStr "+1 555-123-4567");
                       ("verificationStatus", CStr "PENDING");
                       ("averageRating", CNum 0);
                       ("totalRatings", CNum 0);
                       ("totalSales", CNum 0);
                       ("createdAt", CDate 1700000000000);
                       ("updatedAt", CDate 1700000000000) ] |};
         status := 200 |}.
Proof. repeat split; by vm_compute. Qed.

(** ** Document files *)

Lemma allowedTypes_spec (mime : string) :
  mime ∈ DocumentsPage.allowedTypes <-> is_jpeg_png_or_pdf mime.
Proof.
  unfold DocumentsPage.allowedTypes, is_jpeg_png_or_pdf.
  rewrite !elem_of_cons, elem_of_nil. tauto.
Qed.

(** C7.  A selected file is accepted — the page reports success — exactly
    when its type is JPEG, PNG or PDF and its size is at most 5 MiB.  An
    accepted file replaces the entry of its document type in the uploaded
    set; any other file leaves the uploaded set as it was and puts up an
    error message.  In particular a PNG of 6 MiB is rejected, a PDF of
    4 MiB is accepted and a .docx file is rejected whatever its size. *)
Theorem C7_document_file_validation
    (createObjectURL : DocumentsPage.File -> string) (doc_type : string)
    (st : DocumentsPage.State) :
  let select f :=
    DocumentsPage.handleFileSelect createObjectURL doc_type (Some f) st in
  let accepted f :=
    DocumentsPage.message_type (DocumentsPage.message (select f))
    = "success" in
  let rejected f :=
    DocumentsPage.uploadedFiles (select f) = DocumentsPage.uploadedFiles st
    ∧ DocumentsPage.message_type (DocumentsPage.message (select f)) = "error"
    ∧ DocumentsPage.text (DocumentsPage.message (select f)) ≠ "" in
  (∀ f,
     (accepted f
      <-> is_jpeg_png_or_pdf (DocumentsPage.type f)
          ∧ (DocumentsPage.size f <= 5 * MiB)%N)
     ∧ (accepted f ->
        DocumentsPage.uploadedFiles (select f)
        = (filter (fun u => DocumentsPage.uploaded_type u ≠ doc_type)
             (DocumentsPage.uploadedFiles st)
           ++ [ {| DocumentsPage.uploaded_type := doc_type;
                   DocumentsPage.file := f;
                   DocumentsPage.preview := createObjectURL f |} ])%list)
     ∧ (¬ accepted f -> rejected f))
  ∧ (∀ name,
       rejected {| DocumentsPage.name := name;
                   DocumentsPage.type := "image/png";
                   DocumentsPage.size := 6 * MiB |})
  ∧ (∀ name,
       accepted {| DocumentsPage.name := name;
                   DocumentsPage.type := "application/pdf";
                   DocumentsPage.size := 4 * MiB |})
  ∧ (∀ name size,
       rejected
         {| DocumentsPage.name := name;
            DocumentsPage.type :=
              "application/vnd.openxmlformats-officedocument.wordprocessingml.document";
            DocumentsPage.size := size |}).
Proof.
  intros select accepted rejected.
  assert (Hcases : ∀ f,
            if bool_decide (DocumentsPage.type f ∈ DocumentsPage.allowedTypes)
            then if (5 * 1024 * 1024 <? DocumentsPage.size f)%N
                 then rejected f ∧ ¬ accepted f
                 else accepted f
                      ∧ DocumentsPage.uploadedFiles (select f)
                        = (filter
                             (fun u => DocumentsPage.uploaded_type u ≠ doc_type)
                             (DocumentsPage.uploadedFiles st)
                           ++ [ {| DocumentsPage.uploaded_type := doc_type;
                                   DocumentsPage.file := f;
                                   DocumentsPage.preview :=
                                     createObjectURL f |} ])%list
            else rejected f ∧ ¬ accepted f).
  { intros f. unfold rejected, accepted, select, DocumentsPage.handleFileSelect.
    destruct (bool_decide _); simpl; [|done].
    by destruct (_ <? _)%N. }
  split; [|split; [|split]].
  - intros f. specialize (Hcases f).
    destruct (bool_decide_reflect
                (DocumentsPage.type f ∈ DocumentsPage.allowedTypes))
      as [Hty|Hty]; rewrite allowedTypes_spec in Hty.
    + destruct (N.ltb_spec (5 * 1024 * 1024) (DocumentsPage.size f))
        as [Hsz|Hsz]; unfold MiB.
      * destruct Hcases as [Hrej Hnot]. split; [|split].
        -- split; [done | intros [_ ?]; lia].
        -- done.
        -- done.
      * destruct Hcases as [Hacc Hup]. split; [|split].
        -- split; [intros _; split; [done | lia] | done].
        -- done.
        -- done.
    + destruct Hcases as [Hrej Hnot]. split; [|split].
      * split; [done | by intros [? _]].
      * done.
      * done.
  - intros name. by destruct (Hcases
      {| DocumentsPage.name := name; DocumentsPage.type := "image/png";
         DocumentsPage.size := 6 * MiB |}).
  - intros name. by destruct (Hcases
      {| DocumentsPage.name := name; DocumentsPage.type := "application/pdf";
         DocumentsPage.size := 4 * MiB |}).
  - intros name size. by destruct (Hcases
      {| DocumentsPage.name := name;
         DocumentsPage.type :=
           "application/vnd.openxmlformats-officedocument.wordprocessingml.document";
         DocumentsPage.size := size |}).
Qed.

(** ** The category check boxes *)



(** Who is selected after a toggle. *)
Lemma elem_of_toggle (category x : string) (current : list string) :
  x ∈ RegisterPage.toggle category current
  <-> (x = category ∧ category ∉ current) ∨ (x ≠ category ∧ x ∈ current).
Proof.
  unfold RegisterPage.toggle.
  destruct (bool_decide_reflect (category ∈ current)) as [Hin|Hout].
  - rewrite list_elem_of_filter. intuition congruence.
  - rewrite elem_of_app, list_elem_of_singleton.
    destruct (decide (x = category)); intuition congruence.
Qed.

Lemma toggle_NoDup (category : string) (current : list string) :
  NoDup current -> NoDup (RegisterPage.toggle category current).
Proof.
  intros Hnd. unfold RegisterPage.toggle.
  destruct (bool_decide_reflect (category ∈ current)) as [Hin|Hout].
  - by apply NoDup_filter.
  - apply NoDup_app. split; [done|]. split; [|apply NoDup_singleton].
    intros x Hx ->%list_elem_of_singleton. done.
Qed.



(** ** The Submit button *)

(** Whatever the form holds, a click on Submit at step 5 sends it: one
    request, carrying the values as they are, and no entry is added to the
    form's errors. *)
Lemma clickSubmit_always_sends
    (outcome : RegisterPage.FetchOutcome) (st : RegisterPage.State) :
  RegisterPage.success st = false ->
  RegisterPage.isLoading st = false ->
  RegisterPage.currentStep st = 5%nat ->
  snd (RegisterPage.clickSubmit outcome st)
  = [ {| RegisterPage.url := "/api/seller/register";
         RegisterPage.method := "POST";
         RegisterPage.request_body := RegisterPage.watch st |} ]
  ∧ RegisterPage.form_errors (fst (RegisterPage.clickSubmit outcome st))
    = RegisterPage.form_errors st
  ∧ RegisterPage.currentStep (fst (RegisterPage.clickSubmit outcome st))
    = 5%nat.
Proof.
  intros Hs Hl Hstep. unfold RegisterPage.clickSubmit.
  rewrite Hs, Hl, Hstep. simpl. by rewrite Hstep.
Qed.

(** C6 fails on the code.  Step 5 with nothing typed and the terms not
    accepted: the client schema rejects the form's values, with issues under
    eighteen keys, and a click on Submit nevertheless issues one request
    carrying those values, sets no field error and stays on step 5.  The
    blur handler of an input, by contrast, does run the schema and records
    the error. *)
Theorem C6_submit_sends_invalid_form
    (rt : Runtime) (outcome : RegisterPage.FetchOutcome) :
  ZodObject.safeParse (RegisterPage.sellerRegistrationSchema rt)
    (RegisterPage.watch blank_form_at_step5)
  = ParseFailure
      {| formErrors := [];
         fieldErrors :=
           ["businessName"; "businessType"; "description"; "phone";
            "contactPersonName"; "addressLine1"; "city"; "state"; "country";
            "postalCode"; "taxId"; "businessLicense"; "bankAccountHolder";
            "bankName"; "accountNumber"; "ifscSwiftCode"; "productCategories";
            "termsAccepted"] |}
  ∧ snd (RegisterPage.clickSubmit outcome blank_form_at_step5)
    = [ {| RegisterPage.url := "/api/seller/register";
           RegisterPage.method := "POST";
           RegisterPage.request_body :=
             RegisterPage.watch blank_form_at_step5 |} ]
  ∧ RegisterPage.form_errors
      (fst (RegisterPage.clickSubmit outcome blank_form_at_step5))
    = []
  ∧ RegisterPage.currentStep
      (fst (RegisterPage.clickSubmit outcome blank_form_at_step5))
    = 5%nat
  ∧ RegisterPage.form_errors
      (RegisterPage.trigger rt "termsAccepted" blank_form_at_step5)
    = ["termsAccepted"].
Proof.
  assert (Hparse :
    ZodObject.safeParse (RegisterPage.sellerRegistrationSchema rt)
      (RegisterPage.watch blank_form_at_step5)
    = ParseFailure
        {| formErrors := [];
           fieldErrors :=
             ["businessName"; "businessType"; "description"; "phone";
              "contactPersonName"; "addressLine1"; "city"; "state"; "country";
              "postalCode"; "taxId"; "businessLicense"; "bankAccountHolder";
              "bankName"; "accountNumber"; "ifscSwiftCode";
              "productCategories"; "termsAccepted"] |}).
  { destruct rt as [url email to_number object_to_number]. vm_compute.
    by destruct (url ""), (email ""). }
  split; [exact Hparse|].
  split; [reflexivity|]. split; [reflexivity|]. split; [reflexivity|].
  unfold RegisterPage.trigger. rewrite Hparse. reflexivity.
Qed.

(** * Further properties of the code *)

(** ** The registration endpoint, case by case *)

Lemma find_app {A : Type} (f : A -> bool) (l1 l2 : list A) :
  List.find f (l1 ++ l2)
  = match List.find f l1 with Some x => Some x | None => List.find f l2 end.
Proof.
  induction l1 as [|x l1 IH]; simpl; [done|]. by destruct (f x).
Qed.

(** After [db.sellerProfile.create] for an identity that had no profile,
    [findUnique] finds the new row. *)
Lemma findUnique_created userId data now gen db users :
  Prisma.findUnique userId db = None ->
  Prisma.findUnique userId
    {| sellerProfile :=
         (sellerProfile db ++
          [fst (Prisma.create (RegisterRoute.create_data userId data now)
                  gen db)])%list;
       user := users |}
  = Some (fst (Prisma.create (RegisterRoute.create_data userId data now)
                 gen db)).
Proof.
  intros Hnone. unfold Prisma.findUnique in *.
  cbn [sellerProfile]. rewrite find_app, Hnone.
  cbn [List.find]. by rewrite has_userId_created, String.eqb_refl.
Qed.

(** A second registration call by an identity that has a profile. *)
Lemma POST_conflict rt now gen session userId payload data existing db :
  authenticated_as userId session ->
  Prisma.findUnique userId db = Some existing ->
  ZodObject.safeParse (RegisterRoute.sellerRegistrationSchema rt) payload
  = ParseSuccess data ->
  RegisterRoute.POST rt now gen session (Some payload) db
  = ({| body := message_only "You already have a seller profile";
        status := 409 |}, db).
Proof.
  intros [Hid Hne] Hfind Hparse. unfold RegisterRoute.POST.
  by rewrite Hid, (truthy_string_true _ Hne), Hparse, Hfind.
Qed.

(** X1.  Every answer of the registration endpoint has status 201, 400,
    401, 409 or 500.  Without an authenticated identity the answer is 401,
    whatever the body.  An answer 400, 401 or 409 leaves the store as it
    was; a 500 carries nothing but the generic message; only a 201 carries
    profile data, and it comes with one row added for the caller and the
    caller's role set to SELLER. *)
Theorem X1_registration_answers
    (rt : Runtime) (now : Z) (gen : Generated) (session : option Session)
    (request_json : option json) (db : Database) :
  let result := RegisterRoute.POST rt now gen session request_json db in
  status (fst result) ∈ [201; 400; 401; 409; 500]%nat
  ∧ (unauthenticated session ->
     result
     = ({| body := message_only "Authentication required"; status := 401 |},
        db))
  ∧ (status (fst result) ∈ [400; 401; 409]%nat -> snd result = db)
  ∧ (status (fst result) = 500%nat ->
     body (fst result) = message_only "Internal server error")
  ∧ (seller (body (fst result)) ≠ None -> status (fst result) = 201%nat)
  ∧ (status (fst result) = 201%nat ->
     ∃ userId r,
       authenticated_as userId session
       ∧ Prisma.findUnique userId db = None
       ∧ sellerProfile (snd result) = (sellerProfile db ++ [r])%list
       ∧ member "userId" r = Some (CStr userId)
       ∧ user (snd result) = <[userId := "SELLER"]> (user db)).
Proof.
  simpl.
  assert (Hin : ∀ n l, bool_decide (n ∈ l) = true -> n ∈ (l : list nat))
    by (intros n l; apply bool_decide_eq_true_1).
  assert (Hout : ∀ n l (P : Prop),
            bool_decide (n ∈ (l : list nat)) = false -> n ∈ l -> P)
    by (intros n l P Hb Hn; by apply bool_decide_eq_false_1 in Hb).
  unfold RegisterRoute.POST.
  destruct (session_user_id session) as [userId|] eqn:Hid.
  2:{ split; [by apply Hin|]. split; [done|]. split; [done|].
      split; [discriminate|]. split; [done|]. discriminate. }
  destruct (truthy_string userId) eqn:Ht.
  2:{ split; [by apply Hin|]. split; [done|]. split; [done|].
      split; [discriminate|]. split; [done|]. discriminate. }
  assert (Hauth : authenticated_as userId session).
  { split; [done|]. intros ->. discriminate Ht. }
  assert (Hno : ∀ P : Prop, unauthenticated session -> P)
    by (intros P H; by destruct (H userId)).
  destruct request_json as [payload|].
  2:{ split; [by apply Hin|]. split; [apply Hno|]. split; [done|].
      split; [done|]. split; [done|]. discriminate. }
  destruct (ZodObject.safeParse _ payload) as [data|e].
  2:{ split; [by apply Hin|]. split; [apply Hno|]. split; [done|].
      split; [discriminate|]. split; [done|]. discriminate. }
  destruct (Prisma.findUnique userId db) eqn:Hfind.
  { split; [by apply Hin|]. split; [apply Hno|]. split; [done|].
    split; [discriminate|]. split; [done|]. discriminate. }
  simpl. unfold Prisma.user_update. simpl.
  destruct (user db !! userId) eqn:Huser; simpl.
  - split; [by apply Hin|]. split; [apply Hno|].
    split; [by apply Hout|]. split; [discriminate|]. split; [done|].
    intros _. eexists userId, _.
    split; [done|]. split; [done|]. split; [done|]. split; done.
  - split; [by apply Hin|]. split; [apply Hno|].
    split; [by apply Hout|]. split; [done|]. split; [done|]. discriminate.
Qed.

(** ** Members outside the schema *)

(** Two objects with the same members under the schema's keys parse
    alike, whatever the schema does with those keys. *)
Lemma safeParse_schema_keys_only (sh : Shape.t) (ms ms' : list (string * json)) :
  (∀ k, k ∈ schema_keys -> member k ms = member k ms') ->
  ZodObject.safeParse sh (JObj ms) = ZodObject.safeParse sh (JObj ms').
Proof.
  intros Hsame.
  assert (E : ∀ k, bool_decide (k ∈ schema_keys) = true ->
                   prop k (JObj ms) = prop k (JObj ms')).
  { intros k Hk. apply Hsame. eapply bool_decide_eq_true_1. exact Hk. }
  unfold ZodObject.safeParse.
  assert (Hparse : ZodObject.parse sh (JObj ms) = ZodObject.parse sh (JObj ms')).
  { unfold ZodObject.parse, ZodObject.field.
    repeat match goal with
    | |- context [prop ?k (JObj ms)] => rewrite (E k) by reflexivity
    end.
    reflexivity. }
  assert (Hissues :
    ZodObject.issues sh (JObj ms) = ZodObject.issues sh (JObj ms')).
  { unfold ZodObject.issues, ZodObject.issue, ZodObject.field.
    repeat match goal with
    | |- context [prop ?k (JObj ms)] => rewrite (E k) by reflexivity
    end.
    reflexivity. }
  by rewrite Hparse, Hissues.
Qed.

(** X2.  The registration endpoint reads the payload under the thirty keys
    of its schema and nowhere else: two payload objects that agree under
    those keys get the same answer and leave the same store.  A member
    such as verificationStatus, userId or id in the payload changes
    nothing. *)
Theorem X2_members_outside_schema_ignored
    (rt : Runtime) (now : Z) (gen : Generated) (session : option Session)
    (ms ms' : list (string * json)) (db : Database) :
  (∀ k, k ∈ schema_keys -> member k ms = member k ms') ->
  RegisterRoute.POST rt now gen session (Some (JObj ms)) db
  = RegisterRoute.POST rt now gen session (Some (JObj ms')) db.
Proof.
  intros Hsame. unfold RegisterRoute.POST.
  by rewrite (safeParse_schema_keys_only _ ms ms' Hsame).
Qed.

(** X2 at the valid payload and the same payload with verificationStatus
    and userId added. *)
Lemma X2_witness :
  RegisterRoute.POST inert_runtime example_now example_generated
    (session_of "u1") (Some payload_with_extras) fresh_db
  = RegisterRoute.POST inert_runtime example_now example_generated
      (session_of "u1") (Some valid_payload) fresh_db.
Proof.
  apply (X2_members_outside_schema_ignored inert_runtime example_now
           example_generated (session_of "u1")).
  intros k Hk. unfold schema_keys in Hk.
  repeat (apply elem_of_cons in Hk as [->|Hk]);
    [..|by apply elem_of_nil in Hk]; reflexivity.
Defined.

(** ** Registering, then querying or registering again *)

(** X3.  After a successful registration the profile query of the same
    identity answers 200 and leaves the store alone; what it returns has
    exactly the twelve selected keys, agrees with what the registration
    returned under id, businessName, businessType, verificationStatus and
    createdAt, and shows the status PENDING. *)
Theorem X3_query_after_registration
    (rt : Runtime) (now : Z) (gen : Generated) (session : option Session)
    (userId : string) (payload : json) (data : Data.t) (role : string)
    (db : Database) :
  authenticated_as userId session ->
  Prisma.findUnique userId db = None ->
  user db !! userId = Some role ->
  ZodObject.safeParse (RegisterRoute.sellerRegistrationSchema rt) payload
  = ParseSuccess data ->
  let registered := RegisterRoute.POST rt now gen session (Some payload) db in
  ∃ created queried,
    seller (body (fst registered)) = Some created
    ∧ ProfileRoute.GET session (snd registered)
      = ({| body := {| message := None; errors := None;
                       seller := Some queried |};
            status := 200 |}, snd registered)
    ∧ fst <$> queried = ProfileRoute.profile_selection
    ∧ (∀ k, k ∈ RegisterRoute.created_selection ->
            member k queried = member k created)
    ∧ member "businessName" queried = Some (CStr (Data.businessName data))
    ∧ member "verificationStatus" queried = Some (CStr "PENDING").
Proof.
  intros Hauth Hfind Huser Hvalid. simpl.
  rewrite (POST_created rt now gen session userId payload data role db)
    by done.
  destruct Hauth as [Hid Hne].
  eexists _, _. split; [reflexivity|]. split.
  - unfold ProfileRoute.GET.
    rewrite Hid, (truthy_string_true _ Hne).
    cbn [snd]. rewrite findUnique_created by done. reflexivity.
  - split; [reflexivity|]. split; [|split; reflexivity].
    intros k Hk. unfold RegisterRoute.created_selection in Hk.
    repeat (apply elem_of_cons in Hk as [->|Hk]);
      [..|by apply elem_of_nil in Hk]; reflexivity.
Qed.

(** X3 at the first registration of u1. *)
Lemma X3_witness :
  ∃ created queried,
    seller (body (fst (RegisterRoute.POST inert_runtime example_now
                         example_generated (session_of "u1")
                         (Some valid_payload) fresh_db)))
    = Some created
    ∧ ProfileRoute.GET (session_of "u1") registered_db
      = ({| body := {| message := None; errors := None;
                       seller := Some queried |};
            status := 200 |}, registered_db)
    ∧ member "id" queried = member "id" created
    ∧ member "verificationStatus" queried = Some (CStr "PENDING").
Proof.
  destruct (X3_query_after_registration inert_runtime example_now
              example_generated (session_of "u1") "u1" valid_payload
              (Data.mk "Acme Traders" "LLC" None None "+1 555-123-4567"
                 None "Jo Doe" "12 Main Street" None "Pune" "MH" "India"
                 "411001" "ABCDE1234F" None "LIC-0042" None None
                 None None None "Jo Doe" "State Bank" "1234567890"
                 "SBIN0001234" None ["Electronics"] true false true)
              "USER" fresh_db)
    as (created & queried & Hc & Hq & _ & Hsame & _ & Hstatus).
  - split; [reflexivity | discriminate].
  - reflexivity.
  - reflexivity.
  - vm_compute. reflexivity.
  - exists created, queried. split; [exact Hc|]. split; [exact Hq|].
    split; [|exact Hstatus].
    apply Hsame. apply (bool_decide_unpack _). vm_compute. exact I.
Defined.

(** X4.  After a successful registration the identity has exactly one
    profile, and any further registration call of that identity with a
    payload that passes validation is answered 409 and changes nothing. *)
Theorem X4_second_registration_conflicts
    (rt : Runtime) (now now' : Z) (gen gen' : Generated)
    (session : option Session) (userId : string) (payload payload' : json)
    (data data' : Data.t) (role : string) (db : Database) :
  authenticated_as userId session ->
  Prisma.findUnique userId db = None ->
  user db !! userId = Some role ->
  ZodObject.safeParse (RegisterRoute.sellerRegistrationSchema rt) payload
  = ParseSuccess data ->
  ZodObject.safeParse (RegisterRoute.sellerRegistrationSchema rt) payload'
  = ParseSuccess data' ->
  let db1 :=
    snd (RegisterRoute.POST rt now gen session (Some payload) db) in
  length (profiles_of userId db1) = 1%nat
  ∧ RegisterRoute.POST rt now' gen' session (Some payload') db1
    = ({| body := message_only "You already have a seller profile";
          status := 409 |}, db1).
Proof.
  intros Hauth Hfind Huser Hvalid Hvalid'. simpl.
  rewrite (POST_created rt now gen session userId payload data role db)
    by done.
  cbn [snd]. split.
  - unfold profiles_of. cbn [sellerProfile].
    rewrite List.filter_app, filter_one, has_userId_created,
      String.eqb_refl, length_app.
    apply findUnique_None in Hfind. unfold profiles_of in Hfind.
    by rewrite Hfind.
  - eapply POST_conflict; [done| |done]. by apply findUnique_created.
Qed.

(** X4 at u1 registering twice with the same payload. *)
Lemma X4_witness :
  length (profiles_of "u1" registered_db) = 1%nat
  ∧ RegisterRoute.POST inert_runtime example_now example_generated
      (session_of "u1") (Some valid_payload) registered_db
    = ({| body := message_only "You already have a seller profile";
          status := 409 |}, registered_db).
Proof.
  apply (X4_second_registration_conflicts inert_runtime example_now
           example_now example_generated example_generated
           (session_of "u1") "u1" valid_payload valid_payload
           (Data.mk "Acme Traders" "LLC" None None "+1 555-123-4567"
              None "Jo Doe" "12 Main Street" None "Pune" "MH" "India"
              "411001" "ABCDE1234F" None "LIC-0042" None None
              None None None "Jo Doe" "State Bank" "1234567890"
              "SBIN0001234" None ["Electronics"] true false true)
           (Data.mk "Acme Traders" "LLC" None None "+1 555-123-4567"
              None "Jo Doe" "12 Main Street" None "Pune" "MH" "India"
              "411001" "ABCDE1234F" None "LIC-0042" None None
              None None None "Jo Doe" "State Bank" "1234567890"
              "SBIN0001234" None ["Electronics"] true false true)
           "USER" fresh_db).
  - split; [reflexivity | discriminate].
  - reflexivity.
  - reflexivity.
  - vm_compute. reflexivity.
  - vm_compute. reflexivity.
Defined.

(** X5.  When the caller has no user record the role update throws after
    the profile row was created: the answer is the generic 500, the row
    stays in the store and no role is set.  From then on every
    registration call of that identity with a valid payload is answered
    409. *)
Theorem X5_role_update_failure_keeps_profile
    (rt : Runtime) (now : Z) (gen : Generated) (session : option Session)
    (userId : string) (payload : json) (data : Data.t) (db : Database) :
  authenticated_as userId session ->
  Prisma.findUnique userId db = None ->
  user db !! userId = None ->
  ZodObject.safeParse (RegisterRoute.sellerRegistrationSchema rt) payload
  = ParseSuccess data ->
  let result := RegisterRoute.POST rt now gen session (Some payload) db in
  fst result
  = {| body := message_only "Internal server error"; status := 500 |}
  ∧ (∃ r,
       snd result
       = {| sellerProfile := (sellerProfile db ++ [r])%list;
            user := user db |}
       ∧ member "userId" r = Some (CStr userId)
       ∧ member "verificationStatus" r = Some (CStr "PENDING"))
  ∧ (∀ now' gen' payload' data',
       ZodObject.safeParse (RegisterRoute.sellerRegistrationSchema rt)
         payload'
       = ParseSuccess data' ->
       RegisterRoute.POST rt now' gen' session (Some payload') (snd result)
       = ({| body := message_only "You already have a seller profile";
             status := 409 |}, snd result)).
Proof.
  intros Hauth Hfind Huser Hvalid.
  assert (HPOST :
    RegisterRoute.POST rt now gen session (Some payload) db
    = ({| body := message_only "Internal server error"; status := 500 |},
       {| sellerProfile :=
            (sellerProfile db ++
             [fst (Prisma.create
                     (RegisterRoute.create_data userId data now) gen db)])%list;
          user := user db |})).
  { destruct Hauth as [Hid Hne]. unfold RegisterRoute.POST.
    rewrite Hid, (truthy_string_true _ Hne), Hvalid, Hfind.
    cbn [Prisma.create]. unfold Prisma.user_update. cbn [user].
    by rewrite Huser. }
  simpl. rewrite HPOST. cbn [fst snd]. split; [done|]. split.
  - eexists. split; [reflexivity|]. split; reflexivity.
  - intros now' gen' payload' data' Hvalid'.
    eapply POST_conflict; [done| |done]. by apply findUnique_created.
Qed.

(** X5 at an identity that is signed in and has no user record. *)
Lemma X5_witness :
  fst (RegisterRoute.POST inert_runtime example_now example_generated
         (session_of "u1") (Some valid_payload) orphan_db)
  = {| body := message_only "Internal server error"; status := 500 |}.
Proof.
  refine (proj1 (X5_role_update_failure_keeps_profile inert_runtime
                   example_now example_generated (session_of "u1") "u1"
                   valid_payload
                   (Data.mk "Acme Traders" "LLC" None None "+1 555-123-4567"
                      None "Jo Doe" "12 Main Street" None "Pune" "MH"
                      "India" "411001" "ABCDE1234F" None "LIC-0042" None
                      None None None None "Jo Doe" "State Bank" "1234567890"
                      "SBIN0001234" None ["Electronics"] true false true)
                   orphan_db _ _ _ _)).
  - split; [reflexivity | discriminate].
  - reflexivity.
  - reflexivity.
  - vm_compute. reflexivity.
Defined.

(** ** The store over any sequence of registration calls *)

(** X6.  If no identity has more than one profile, then after any sequence
    of registration calls — by any identities, with any payloads — no
    identity has more than one. *)
Theorem X6_at_most_one_profile_per_identity
    (rt : Runtime) (calls : list Call) (db : Database) :
  (∀ userId, (length (profiles_of userId db) <= 1)%nat) ->
  ∀ userId,
    (length (profiles_of userId (after_calls rt calls db)) <= 1)%nat.
Proof. apply after_calls_at_most_one. Qed.

(** X6 at the fresh store and the three example calls after a first
    registration. *)
Lemma X6_witness :
  (length
     (profiles_of "u1"
        (after_calls inert_runtime
           ({| call_now := example_now; call_generated := example_generated;
               call_session := session_of "u1";
               call_json := Some valid_payload |} :: example_calls)
           fresh_db))
   <= 1)%nat.
Proof.
  apply (X6_at_most_one_profile_per_identity inert_runtime _ fresh_db).
  intros userId. simpl. lia.
Defined.

(** What one call does to the two tables. *)
Lemma POST_grows rt now gen session request_json db :
  let db' := snd (RegisterRoute.POST rt now gen session request_json db) in
  (∃ added,
     sellerProfile db' = (sellerProfile db ++ added)%list
     ∧ Forall (fun r => member "verificationStatus" r = Some (CStr "PENDING"))
         added)
  ∧ (∀ u, user db' !! u = user db !! u
          ∨ is_Some (user db !! u) ∧ user db' !! u = Some "SELLER").
Proof.
  assert (Hsame : ∀ d : Database,
    (∃ added,
       sellerProfile d = (sellerProfile d ++ added)%list
       ∧ Forall (fun r => member "verificationStatus" r
                          = Some (CStr "PENDING")) added)
    ∧ (∀ u, user d !! u = user d !! u
            ∨ is_Some (user d !! u) ∧ user d !! u = Some "SELLER")).
  { intros d. split; [|by left]. exists []. by rewrite app_nil_r. }
  unfold RegisterRoute.POST.
  destruct (session_user_id session) as [userId|]; [|apply Hsame].
  destruct (truthy_string userId); [|apply Hsame].
  destruct request_json as [payload|]; [|apply Hsame].
  destruct (ZodObject.safeParse _ payload) as [data|e]; [|apply Hsame].
  destruct (Prisma.findUnique userId db); [apply Hsame|].
  cbn [Prisma.create]. unfold Prisma.user_update. cbn [user sellerProfile].
  destruct (user db !! userId) as [role|] eqn:Huser; cbn [snd].
  - split.
    + eexists [_]. split; [reflexivity|]. by repeat constructor.
    + intros u. cbn [user]. destruct (decide (u = userId)) as [->|Hne].
      * right. rewrite Huser, lookup_insert_eq. eauto.
      * left. by rewrite lookup_insert_ne.
  - split; [|by left].
    eexists [_]. split; [reflexivity|]. by repeat constructor.
Qed.

(** X7.  Registration calls only ever add to the profile table: after any
    sequence of calls the rows that were there are still there, unchanged
    and in the same order, followed by the new rows, each of which has
    verificationStatus PENDING.  In the user table an identity's role is
    what it was or has become SELLER; no user record appears or
    disappears. *)
Theorem X7_store_only_grows
    (rt : Runtime) (calls : list Call) (db : Database) :
  let db' := after_calls rt calls db in
  (∃ added,
     sellerProfile db' = (sellerProfile db ++ added)%list
     ∧ Forall (fun r => member "verificationStatus" r = Some (CStr "PENDING"))
         added)
  ∧ (∀ u, user db' !! u = user db !! u
          ∨ is_Some (user db !! u) ∧ user db' !! u = Some "SELLER").
Proof.
  simpl. revert db. induction calls as [|c calls IH]; intros db.
  - split; [|by left]. exists []. by rewrite app_nil_r.
  - cbn [after_calls foldl].
    destruct (POST_grows rt (call_now c) (call_generated c) (call_session c)
                (call_json c) db) as [(added1 & Hrows1 & Hpending1) Husers1].
    destruct (IH (snd (RegisterRoute.POST rt (call_now c) (call_generated c)
                         (call_session c) (call_json c) db)))
      as [(added2 & Hrows2 & Hpending2) Husers2].
    unfold after_calls in *. split.
    + exists (added1 ++ added2)%list. split.
      * by rewrite Hrows2, Hrows1, app_assoc.
      * by apply Forall_app.
    + intros u. destruct (Husers1 u) as [H1|[Hsome H1]],
        (Husers2 u) as [H2|[Hsome2 H2]].
      * left. congruence.
      * right. split; [|done]. by rewrite <- H1.
      * right. split; [done|]. congruence.
      * right. by split.
Qed.

(** ** What validated data can be relied on for *)

Lemma phone_regex_length (s : string) :
  phone_regex s = true -> (10 <= String.length s)%nat.
Proof.
  unfold phone_regex. intros [Hlen _]%andb_prop. apply Nat.leb_le in Hlen.
  destruct s as [|c s]; [done|].
  destruct (Ascii.eqb_spec c "+") as [->|Hc].
  - simpl in *. lia.
  - destruct c as [[] [] [] [] [] [] [] []]; try done; simpl in *; lia.
Qed.

Lemma enum_Some (values : list string) v s :
  Zod.enum values v = Some s <-> v = Some (JStr s) ∧ s ∈ values.
Proof.
  unfold Zod.enum. rewrite refine_Some, string_Some.
  by rewrite bool_decide_eq_true.
Qed.

Lemma optional_present {T : Type} (p : Zod.schema T) v x :
  Zod.optional p v = Some (Some x) -> p v = Some x.
Proof.
  unfold Zod.optional. destruct v; [|done].
  destruct (p _); intros [= ->]; done.
Qed.

(** A value that [p.optional().or(z.literal(''))] lets through, [p] being a
    refinement of strings, is the empty string or passes the refinement. *)
Lemma refined_or_empty_present (f : string -> bool) v s :
  Zod.or (Zod.optional (Zod.refine f Zod.string_)) (Zod.literal "") v
  = Some (Some s) ->
  s = "" ∨ f s = true.
Proof.
  unfold Zod.or.
  destruct (Zod.optional _ v) as [o|] eqn:Hopt.
  - intros [= ->]. apply optional_present in Hopt.
    apply refine_Some in Hopt as [_ ?]. by right.
  - unfold Zod.literal. destruct v as [[| | |s'| |]|]; try done. simpl.
    destruct (String.eqb_spec s' ""); [|done]. intros [= <-]. by left.
Qed.

(** X8.  Data that passed the endpoint's validation has: the minimum
    lengths of the required strings, a business type of the enum, a phone
    of at least ten characters that matches the pattern, at least one
    category, the terms accepted, a description (when present) of 10 to
    500 characters, a number of years (when present) that is a number, not
    below 0 and not above 100, and every URL or e-mail member (when
    present) either empty or passing zod's check. *)
Theorem X8_validated_data_guarantees
    (rt : Runtime) (payload : json) (d : Data.t) :
  ZodObject.safeParse (RegisterRoute.sellerRegistrationSchema rt) payload
  = ParseSuccess d ->
  ((2 <= String.length (Data.businessName d))%nat
   ∧ Data.businessType d ∈ business_types
   ∧ phone_regex (Data.phone d) = true
   ∧ (10 <= String.length (Data.phone d))%nat
   ∧ (2 <= String.length (Data.contactPersonName d))%nat
   ∧ (5 <= String.length (Data.addressLine1 d))%nat
   ∧ (2 <= String.length (Data.city d))%nat
   ∧ (2 <= String.length (Data.state d))%nat
   ∧ (2 <= String.length (Data.country d))%nat
   ∧ (3 <= String.length (Data.postalCode d))%nat)
  ∧ server_lengths d
  ∧ Data.productCategories d ≠ []
  ∧ Data.termsAccepted d = true
  ∧ (∀ s, Data.description d = Some s ->
          (10 <= String.length s <= 500)%nat)
  ∧ (∀ x, Data.yearsInBusiness d = Some x ->
          is_nan x = false
          ∧ PrimFloat.ltb x 0%float = false
          ∧ PrimFloat.ltb 100%float x = false)
  ∧ (∀ s, Data.website d = Some s
          ∨ Data.facebookUrl d = Some s
          ∨ Data.instagramUrl d = Some s
          ∨ Data.linkedinUrl d = Some s
          ∨ Data.twitterUrl d = Some s ->
          s = "" ∨ isUrl rt s = true)
  ∧ (∀ s, Data.businessEmail d = Some s -> s = "" ∨ isEmail rt s = true).
Proof.
  intros [_ Hd]%safeParse_success.
  unfold parsed_as, ZodObject.field in Hd.
  cbn [RegisterRoute.sellerRegistrationSchema Shape.businessName
       Shape.businessType Shape.description Shape.website Shape.phone
       Shape.businessEmail Shape.contactPersonName Shape.addressLine1
       Shape.addressLine2 Shape.city Shape.state Shape.country
       Shape.postalCode Shape.taxId Shape.gstVatNumber Shape.businessLicense
       Shape.yearsInBusiness Shape.facebookUrl Shape.instagramUrl
       Shape.linkedinUrl Shape.twitterUrl Shape.bankAccountHolder
       Shape.bankName Shape.accountNumber Shape.ifscSwiftCode
       Shape.bankBranchAddress Shape.productCategories
       Shape.managesOwnShipping Shape.needsShippingHelp Shape.termsAccepted]
    in Hd.
  destruct Hd as (Hname & Htype & Hdesc & Hweb & Hphone & Hmail & Hcontact
    & Haddr & _ & Hcity & Hstate & Hcountry & Hpost & Htax & _ & Hlic
    & Hyears & Hfb & Hig & Hli & Htw & Hholder & Hbank & Hacct & Hifsc & _
    & Hcats & _ & _ & Hterms).
  apply min_Some in Hname as [_ ?], Hcontact as [_ ?], Haddr as [_ ?],
    Hcity as [_ ?], Hstate as [_ ?], Hcountry as [_ ?], Hpost as [_ ?],
    Htax as [_ ?], Hlic as [_ ?], Hholder as [_ ?], Hbank as [_ ?],
    Hacct as [_ ?], Hifsc as [_ ?].
  apply enum_Some in Htype as [_ Htype].
  apply refine_Some in Hphone as [_ Hphone].
  apply array_min_1_Some in Hcats as [Hcats _].
  apply terms_Some in Hterms as [Hterms _].
  split; [|split; [|split; [|split; [|split; [|split; [|split]]]]]].
  - repeat split; try done. by apply phone_regex_length.
  - by repeat split.
  - done.
  - done.
  - intros s Hs. rewrite Hs in Hdesc. apply optional_present in Hdesc.
    apply refine_Some in Hdesc as [Hdesc Hmax].
    apply min_Some in Hdesc as [_ Hmin]. apply Nat.leb_le in Hmax. lia.
  - intros x Hx. rewrite Hx in Hyears. apply optional_present in Hyears.
    apply refine_Some in Hyears as [Hyears Hmax].
    apply refine_Some in Hyears as [Hyears Hmin].
    unfold Zod.coerce_number in Hyears.
    destruct (is_nan (Number rt _)) eqn:Hnan; [done|].
    injection Hyears as <-.
    apply negb_true_iff in Hmin, Hmax. by rewrite Hnan.
  - intros s [Hs|[Hs|[Hs|[Hs|Hs]]]];
      [rewrite Hs in Hweb; by apply refined_or_empty_present in Hweb
      |rewrite Hs in Hfb; by apply refined_or_empty_present in Hfb
      |rewrite Hs in Hig; by apply refined_or_empty_present in Hig
      |rewrite Hs in Hli; by apply refined_or_empty_present in Hli
      |rewrite Hs in Htw; by apply refined_or_empty_present in Htw].
  - intros s Hs. rewrite Hs in Hmail.
    by apply refined_or_empty_present in Hmail.
Qed.

(** X8 at the valid payload. *)
Lemma X8_witness :
  Data.productCategories
    (Data.mk "Acme Traders" "LLC" None None "+1 555-123-4567"
       None "Jo Doe" "12 Main Street" None "Pune" "MH" "India"
       "411001" "ABCDE1234F" None "LIC-0042" None None
       None None None "Jo Doe" "State Bank" "1234567890"
       "SBIN0001234" None ["Electronics"] true false true)
  ≠ [].
Proof.
  refine (proj1 (proj2 (proj2
    (X8_validated_data_guarantees inert_runtime valid_payload _ _)))).
  vm_compute. reflexivity.
Defined.

(** ** The steps of the registration form *)

Lemma register_grows (input : string * json) (values : list (string * json)) :
  ∃ added,
    RegisterPage.register input values = (values ++ added)%list
    ∧ Forall (fun i => i = input) added.
Proof.
  unfold RegisterPage.register. destruct (member (fst input) values).
  - exists []. by rewrite app_nil_r.
  - exists [input]. split; [done|]. by repeat constructor.
Qed.

Lemma register_all_grows (inputs : list (string * json))
    (values : list (string * json)) :
  ∃ added,
    foldl (fun vs input => RegisterPage.register input vs) values inputs
    = (values ++ added)%list
    ∧ Forall (fun i => i ∈ inputs) added.
Proof.
  revert values. induction inputs as [|i inputs IH]; intros values.
  - exists []. by rewrite app_nil_r.
  - cbn [foldl].
    destruct (register_grows i values) as (added1 & -> & Hadded1).
    destruct (IH (values ++ added1)%list) as (added2 & -> & Hadded2).
    exists (added1 ++ added2)%list. split; [by rewrite app_assoc|].
    apply Forall_app. split.
    + eapply Forall_impl; [exact Hadded1|]. intros ? ->.
      apply list_elem_of_here.
    + eapply Forall_impl; [exact Hadded2|]. intros ? ?.
      by apply list_elem_of_further.
Qed.

Lemma register_all_keeps inputs (values : list (string * json)) k v :
  member k values = Some v ->
  member k (foldl (fun vs input => RegisterPage.register input vs)
              values inputs)
  = Some v.
Proof.
  intros Hk. destruct (register_all_grows inputs values) as (added & -> & _).
  by rewrite member_app, Hk.
Qed.

Lemma register_all_registers inputs (values : list (string * json)) input :
  input ∈ inputs ->
  is_Some
    (member (fst input)
       (foldl (fun vs i => RegisterPage.register i vs) values inputs)).
Proof.
  revert values. induction inputs as [|i inputs IH]; intros values Hin.
  - by apply elem_of_nil in Hin.
  - cbn [foldl]. apply elem_of_cons in Hin as [->|Hin]; [|by apply IH].
    assert (Hi : is_Some (member (fst i) (RegisterPage.register i values))).
    { unfold RegisterPage.register.
      destruct (member (fst i) values) as [v|] eqn:Hm; [by rewrite Hm|].
      rewrite member_app, Hm. destruct i as [k v]. simpl.
      by rewrite String.eqb_refl. }
    destruct Hi as [v Hv]. exists v. by apply register_all_keeps.
Qed.

Lemma register_all_fixed inputs (values : list (string * json)) :
  (∀ input, input ∈ inputs -> is_Some (member (fst input) values)) ->
  foldl (fun vs i => RegisterPage.register i vs) values inputs = values.
Proof.
  induction inputs as [|i inputs IH]; intros Hall; [done|].
  cbn [foldl]. unfold RegisterPage.register at 2.
  destruct (Hall i) as [v ->]; [apply list_elem_of_here|].
  apply IH. intros input Hin. apply Hall. by apply list_elem_of_further.
Qed.

(** Once the inputs of a step are registered, showing the step again
    leaves the form's values as they are. *)
Lemma mount_registered (step : nat) (st : RegisterPage.State) :
  registered step st ->
  RegisterPage.mount step (RegisterPage.fields st) = RegisterPage.fields st.
Proof. apply register_all_fixed. Qed.

Lemma registered_grows (step : nat) (st st' : RegisterPage.State) added :
  RegisterPage.fields st' = (RegisterPage.fields st ++ added)%list ->
  registered step st -> registered step st'.
Proof.
  intros Hfields Hreg input Hin. destruct (Hreg input Hin) as [v Hv].
  exists v. by rewrite Hfields, member_app, Hv.
Qed.

Lemma navigate_keeps (st : RegisterPage.State) (n : Navigation) :
  (1 <= RegisterPage.currentStep st <= 5)%nat ->
  let st' := navigate st n in
  (1 <= RegisterPage.currentStep st' <= 5)%nat
  ∧ (∃ added,
       RegisterPage.fields st' = (RegisterPage.fields st ++ added)%list
       ∧ Forall (fun input => ∃ step, input ∈ RegisterPage.step_inputs step)
           added)
  ∧ (registered (RegisterPage.currentStep st) st ->
     registered (RegisterPage.currentStep st') st')
  ∧ RegisterPage.selectedCategories st' = RegisterPage.selectedCategories st
  ∧ RegisterPage.form_errors st' = RegisterPage.form_errors st
  ∧ RegisterPage.error st' = RegisterPage.error st
  ∧ RegisterPage.success st' = RegisterPage.success st
  ∧ RegisterPage.isLoading st' = RegisterPage.isLoading st.
Proof.
  intros Hstep.
  assert (Hsame :
    (1 <= RegisterPage.currentStep st <= 5)%nat
    ∧ (∃ added,
         RegisterPage.fields st = (RegisterPage.fields st ++ added)%list
         ∧ Forall (fun input => ∃ step, input ∈ RegisterPage.step_inputs step)
             added)
    ∧ (registered (RegisterPage.currentStep st) st ->
       registered (RegisterPage.currentStep st) st)
    ∧ RegisterPage.selectedCategories st = RegisterPage.selectedCategories st
    ∧ RegisterPage.form_errors st = RegisterPage.form_errors st
    ∧ RegisterPage.error st = RegisterPage.error st
    ∧ RegisterPage.success st = RegisterPage.success st
    ∧ RegisterPage.isLoading st = RegisterPage.isLoading st).
  { split; [done|]. split; [|done]. exists []. by rewrite app_nil_r. }
  assert (Hshown : ∀ step,
    (1 <= step <= 5)%nat ->
    let st' :=
      RegisterPage.render_step (RegisterPage.setCurrentStep step st) in
    (1 <= RegisterPage.currentStep st' <= 5)%nat
    ∧ (∃ added,
         RegisterPage.fields st' = (RegisterPage.fields st ++ added)%list
         ∧ Forall (fun input => ∃ step, input ∈ RegisterPage.step_inputs step)
             added)
    ∧ (registered (RegisterPage.currentStep st) st ->
       registered (RegisterPage.currentStep st') st')
    ∧ RegisterPage.selectedCategories st' = RegisterPage.selectedCategories st
    ∧ RegisterPage.form_errors st' = RegisterPage.form_errors st
    ∧ RegisterPage.error st' = RegisterPage.error st
    ∧ RegisterPage.success st' = RegisterPage.success st
    ∧ RegisterPage.isLoading st' = RegisterPage.isLoading st).
  { intros step Hrange. cbn.
    split; [done|]. split; [|split; [|done]].
    - unfold RegisterPage.mount.
      destruct (register_all_grows (RegisterPage.step_inputs step)
                  (RegisterPage.fields st)) as (added & -> & Hadded).
      exists added. split; [done|].
      eapply Forall_impl; [exact Hadded|]. intros input Hin. by exists step.
    - intros _ input Hin. cbn. by apply register_all_registers. }
  destruct n; cbn [navigate];
    unfold RegisterPage.clickPrevious, RegisterPage.clickNext.
  - destruct (negb _ && (1 <? _)%nat) eqn:Hc; [|exact Hsame].
    apply andb_prop in Hc as [_ Hlt]. apply Nat.ltb_lt in Hlt.
    apply Hshown. lia.
  - destruct (negb _ && (_ <? 5)%nat) eqn:Hc; [|exact Hsame].
    apply andb_prop in Hc as [_ Hlt]. apply Nat.ltb_lt in Hlt.
    apply Hshown. lia.
Qed.

(** X9.  Whatever sequence of Previous and Next clicks is made, the step
    stays between 1 and 5 and nothing that was typed or selected is lost:
    the form's values are the ones it had, followed by the entries that
    inputs of newly shown steps registered with their initial values, so
    every value the form held it still holds; the inputs of the step shown
    are registered; and the selected categories, the errors and the other
    cells of the page are unchanged.  On a step below 5 a click on Submit
    is not possible and sends nothing. *)
Theorem X9_navigation_stays_in_range_and_keeps_form
    (st : RegisterPage.State) (clicks : list Navigation) :
  (1 <= RegisterPage.currentStep st <= 5)%nat ->
  let st' := foldl navigate st clicks in
  (1 <= RegisterPage.currentStep st' <= 5)%nat
  ∧ (∃ added,
       RegisterPage.fields st' = (RegisterPage.fields st ++ added)%list
       ∧ Forall (fun input => ∃ step, input ∈ RegisterPage.step_inputs step)
           added)
  ∧ (∀ k v,
       member k (RegisterPage.fields st) = Some v ->
       member k (RegisterPage.fields st') = Some v)
  ∧ (registered (RegisterPage.currentStep st) st ->
     registered (RegisterPage.currentStep st') st')
  ∧ RegisterPage.selectedCategories st' = RegisterPage.selectedCategories st
  ∧ RegisterPage.form_errors st' = RegisterPage.form_errors st
  ∧ RegisterPage.error st' = RegisterPage.error st
  ∧ RegisterPage.success st' = RegisterPage.success st
  ∧ RegisterPage.isLoading st' = RegisterPage.isLoading st
  ∧ (∀ outcome,
       (RegisterPage.currentStep st' < 5)%nat ->
       RegisterPage.clickSubmit outcome st' = (st', [])).
Proof.
  cbv zeta. revert st. induction clicks as [|n clicks IH]; intros st Hstep.
  - cbn [foldl]. split; [done|]. split.
    { exists []. by rewrite app_nil_r. }
    do 7 (split; [done|]).
    intros outcome Hlt. unfold RegisterPage.clickSubmit.
    apply Nat.ltb_lt in Hlt. rewrite Hlt. by rewrite andb_false_r.
  - cbn [foldl].
    destruct (navigate_keeps st n Hstep)
      as (Hs & (added1 & Hf1 & Ha1) & Hr & Hc & He & Herr & Hsucc & Hload).
    destruct (IH (navigate st n) Hs)
      as (Hs' & (added2 & Hf2 & Ha2) & Hm' & Hr' & Hc' & He' & Herr' & Hsucc'
          & Hload' & Hsubmit).
    split; [done|]. split.
    { exists (added1 ++ added2)%list. split.
      - by rewrite Hf2, Hf1, app_assoc.
      - by apply Forall_app. }
    split.
    { intros k v Hk. apply Hm'. by rewrite Hf1, member_app, Hk. }
    split; [by intros H; apply Hr', Hr|].
    repeat split; try congruence. exact Hsubmit.
Qed.

(** X9 at the first render, for Next, Next, Previous, Next. *)
Lemma X9_witness :
  RegisterPage.currentStep
    (foldl navigate RegisterPage.initial [Next; Next; Previous; Next])
  = 3%nat
  ∧ (1 <= RegisterPage.currentStep
            (foldl navigate RegisterPage.initial [Next; Next; Previous; Next])
     <= 5)%nat.
Proof.
  split; [reflexivity|].
  refine (proj1 (X9_navigation_stays_in_range_and_keeps_form
                   RegisterPage.initial [Next; Next; Previous; Next] _)).
  simpl. lia.
Defined.

(** Four clicks on Next without typing anything lead from the first
    render to the blank form on step 5. *)
Example four_next_clicks_give_the_blank_form :
  foldl navigate RegisterPage.initial [Next; Next; Next; Next]
  = blank_form_at_step5.
Proof. reflexivity. Qed.

Lemma clickNext_shown (st : RegisterPage.State) :
  RegisterPage.success st = false ->
  (RegisterPage.currentStep st < 5)%nat ->
  RegisterPage.clickNext st
  = RegisterPage.render_step
      (RegisterPage.setCurrentStep (RegisterPage.currentStep st + 1) st).
Proof.
  intros Hs Hlt. unfold RegisterPage.clickNext.
  by rewrite Hs, (proj2 (Nat.ltb_lt _ 5)).
Qed.

Lemma clickPrevious_shown (st : RegisterPage.State) :
  RegisterPage.success st = false ->
  (1 < RegisterPage.currentStep st)%nat ->
  RegisterPage.clickPrevious st
  = RegisterPage.render_step
      (RegisterPage.setCurrentStep (RegisterPage.currentStep st - 1) st).
Proof.
  intros Hs Hlt. unfold RegisterPage.clickPrevious.
  by rewrite Hs, (proj2 (Nat.ltb_lt 1 _)).
Qed.

(** X10.  From a step 1 to 4, Next then Previous comes back to the same
    step with every value the form held; the form may have gained the
    entries of the inputs of the two steps, and when those inputs were
    registered already (both steps had been shown) the page is exactly as
    it was.  The same holds for Previous then Next from a step 2 to 5.
    Next does nothing on step 5, Previous does nothing on step 1, and
    neither does anything once the submission has succeeded. *)
Theorem X10_previous_and_next_are_inverse (st : RegisterPage.State) :
  ((1 <= RegisterPage.currentStep st < 5)%nat ->
   let back := RegisterPage.clickPrevious (RegisterPage.clickNext st) in
   RegisterPage.currentStep back = RegisterPage.currentStep st
   ∧ (∀ k v,
        member k (RegisterPage.fields st) = Some v ->
        member k (RegisterPage.fields back) = Some v)
   ∧ (registered (RegisterPage.currentStep st) st ->
      registered (RegisterPage.currentStep st + 1) st ->
      back = st))
  ∧ ((1 < RegisterPage.currentStep st <= 5)%nat ->
     let forth := RegisterPage.clickNext (RegisterPage.clickPrevious st) in
     RegisterPage.currentStep forth = RegisterPage.currentStep st
     ∧ (∀ k v,
          member k (RegisterPage.fields st) = Some v ->
          member k (RegisterPage.fields forth) = Some v)
     ∧ (registered (RegisterPage.currentStep st) st ->
        registered (RegisterPage.currentStep st - 1) st ->
        forth = st))
  ∧ ((5 <= RegisterPage.currentStep st)%nat -> RegisterPage.clickNext st = st)
  ∧ ((RegisterPage.currentStep st <= 1)%nat ->
     RegisterPage.clickPrevious st = st)
  ∧ (RegisterPage.success st = true ->
     RegisterPage.clickNext st = st ∧ RegisterPage.clickPrevious st = st).
Proof.
  assert (Hthere : ∀ a b,
    let there := RegisterPage.render_step (RegisterPage.setCurrentStep a st) in
    let back := RegisterPage.render_step (RegisterPage.setCurrentStep b there) in
    RegisterPage.currentStep back = b
    ∧ (∀ k v,
         member k (RegisterPage.fields st) = Some v ->
         member k (RegisterPage.fields back) = Some v)
    ∧ (b = RegisterPage.currentStep st ->
       registered b st -> registered a st -> back = st)).
  { intros a b. cbv zeta.
    unfold RegisterPage.render_step, RegisterPage.setCurrentStep.
    cbn [RegisterPage.currentStep RegisterPage.fields RegisterPage.isLoading
         RegisterPage.error RegisterPage.success
         RegisterPage.selectedCategories RegisterPage.form_errors].
    split; [done|]. split.
    - intros k v Hk. unfold RegisterPage.mount.
      by do 2 apply register_all_keeps.
    - intros -> Hb Ha. apply mount_registered in Ha, Hb.
      rewrite Ha, Hb. by destruct st. }
  destruct (RegisterPage.success st) eqn:Hs.
  { assert (HN : RegisterPage.clickNext st = st)
      by (unfold RegisterPage.clickNext; by rewrite Hs).
    assert (HP : RegisterPage.clickPrevious st = st)
      by (unfold RegisterPage.clickPrevious; by rewrite Hs).
    cbv zeta. rewrite HN, HP, HN. by repeat split. }
  split; [|split; [|split; [|split]]].
  - intros [Hge Hlt].
    rewrite (clickNext_shown st) by done.
    rewrite clickPrevious_shown by (cbn; (done || lia)).
    destruct (Hthere (RegisterPage.currentStep st + 1)%nat
                (RegisterPage.currentStep st + 1 - 1)%nat)
      as (Hstep & Hkeep & Hsame).
    cbv zeta. split; [etransitivity; [exact Hstep|lia]|].
    split; [exact Hkeep|].
    intros Hreg Hreg'. apply Hsame; [lia| |done].
    by replace (RegisterPage.currentStep st + 1 - 1)%nat
      with (RegisterPage.currentStep st) by lia.
  - intros [Hgt Hle].
    rewrite (clickPrevious_shown st) by done.
    rewrite clickNext_shown by (cbn; (done || lia)).
    destruct (Hthere (RegisterPage.currentStep st - 1)%nat
                (RegisterPage.currentStep st - 1 + 1)%nat)
      as (Hstep & Hkeep & Hsame).
    cbv zeta. split; [etransitivity; [exact Hstep|lia]|].
    split; [exact Hkeep|].
    intros Hreg Hreg'. apply Hsame; [lia| |done].
    by replace (RegisterPage.currentStep st - 1 + 1)%nat
      with (RegisterPage.currentStep st) by lia.
  - intros Hge. unfold RegisterPage.clickNext.
    rewrite (proj2 (Nat.ltb_ge _ 5)) by done. by rewrite andb_false_r.
  - intros Hle. unfold RegisterPage.clickPrevious.
    rewrite (proj2 (Nat.ltb_ge 1 _)) by done. by rewrite andb_false_r.
  - discriminate.
Qed.

(** Going to step 2 and back, then once more: the second round trip leaves
    the page exactly as it was. *)
Example second_round_trip_changes_nothing :
  let st := foldl navigate RegisterPage.initial [Next; Previous] in
  RegisterPage.clickPrevious (RegisterPage.clickNext st) = st.
Proof. reflexivity. Qed.

(** ** More on the category check boxes *)


Lemma toggles_within (catalog categories : list string)
    (st : RegisterPage.State) :
  (∀ c, c ∈ categories -> c ∈ catalog) ->
  NoDup (RegisterPage.selectedCategories st) ->
  (∀ x, x ∈ RegisterPage.selectedCategories st -> x ∈ catalog) ->
  let st' :=
    foldl (fun st c => RegisterPage.toggleCategory c st) st categories in
  NoDup (RegisterPage.selectedCategories st')
  ∧ (∀ x, x ∈ RegisterPage.selectedCategories st' -> x ∈ catalog).
Proof.
  simpl. revert st.
  induction categories as [|c cs IH]; intros st Hcs Hnd Hsub; [done|].
  cbn [foldl]. apply IH.
  - intros c' Hc'. apply Hcs. by apply list_elem_of_further.
  - simpl. by apply toggle_NoDup.
  - simpl. intros x [[-> _]|[_ Hx]]%elem_of_toggle.
    + apply Hcs. apply list_elem_of_here.
    + by apply Hsub.
Qed.

(** X12.  The check boxes only offer the sixteen categories of the catalog;
    whatever boxes are toggled, in whatever order, the selection the form
    submits holds categories of the catalog only, each once, so at most
    sixteen. *)
Theorem X12_selection_within_catalog (categories : list string) :
  (∀ c, c ∈ categories -> c ∈ RegisterPage.productCategories) ->
  let selection :=
    RegisterPage.selectedCategories
      (foldl (fun st c => RegisterPage.toggleCategory c st)
         RegisterPage.initial categories) in
  (∀ x, x ∈ selection -> x ∈ RegisterPage.productCategories)
  ∧ NoDup selection
  ∧ (length selection <= 16)%nat.
Proof.
  intros Hcs.
  destruct (toggles_within RegisterPage.productCategories categories
              RegisterPage.initial Hcs)
    as [Hnd Hsub].
  { apply NoDup_nil_2. }
  { intros x Hx. by apply elem_of_nil in Hx. }
  simpl. split; [done|]. split; [done|].
  change 16%nat with (length RegisterPage.productCategories).
  apply submseteq_length. by apply NoDup_submseteq.
Qed.

(** X12 at four toggles, one of them undoing another. *)
Lemma X12_witness :
  (length
     (RegisterPage.selectedCategories
        (foldl (fun st c => RegisterPage.toggleCategory c st)
           RegisterPage.initial ["Other"; "Automotive"; "Other"; "Electronics"]))
   <= 16)%nat.
Proof.
  refine (proj2 (proj2 (X12_selection_within_catalog
                          ["Other"; "Automotive"; "Other"; "Electronics"] _))).
  intros c Hc.
  repeat (apply elem_of_cons in Hc as [->|Hc]);
    [..|by apply elem_of_nil in Hc];
    apply (bool_decide_unpack _); vm_compute; exact I.
Defined.

(** ** Submitting the form to the endpoint *)

(** X13.  The form on step 5 is submitted and the endpoint answers the
    request the page sent.  The page shows its success view exactly when
    the answer is 201, in which case a profile row was added; otherwise it
    shows the message of the answer as its error.  Either way it is no
    longer loading, stays on step 5 and keeps what was typed and
    selected. *)
Theorem X13_submit_shows_the_answer
    (rt : Runtime) (now : Z) (gen : Generated) (session : option Session)
    (db : Database) (st : RegisterPage.State) :
  RegisterPage.success st = false ->
  RegisterPage.isLoading st = false ->
  RegisterPage.currentStep st = 5%nat ->
  let answer :=
    RegisterRoute.POST rt now gen session (Some (RegisterPage.watch st)) db in
  let page :=
    fst (RegisterPage.clickSubmit (RegisterPage.Resolved (fst answer)) st) in
  (RegisterPage.success page = true <-> status (fst answer) = 201%nat)
  ∧ (RegisterPage.success page = true ->
     RegisterPage.error page = ""
     ∧ ∃ r, sellerProfile (snd answer) = (sellerProfile db ++ [r])%list)
  ∧ (RegisterPage.success page = false ->
     Some (RegisterPage.error page) = message (body (fst answer)))
  ∧ RegisterPage.isLoading page = false
  ∧ RegisterPage.currentStep page = 5%nat
  ∧ RegisterPage.fields page = RegisterPage.fields st
  ∧ RegisterPage.selectedCategories page = RegisterPage.selectedCategories st.
Proof.
  intros Hs Hl Hstep. simpl. unfold RegisterPage.clickSubmit.
  rewrite Hs, Hl, Hstep. cbn [negb andb Nat.ltb Nat.leb].
  unfold RegisterPage.onSubmit. cbn [fst].
  cbn [RegisterPage.success RegisterPage.error RegisterPage.isLoading
       RegisterPage.currentStep RegisterPage.fields
       RegisterPage.selectedCategories].
  rewrite Hs.
  set (payload := RegisterPage.watch st). unfold RegisterRoute.POST.
  destruct (session_user_id session) as [userId|];
    [|by repeat split; try done; intros [_ ?]].
  destruct (truthy_string userId); [|by repeat split].
  destruct (ZodObject.safeParse _ payload) as [data|e]; [|by repeat split].
  destruct (Prisma.findUnique userId db); [by repeat split|].
  cbn [Prisma.create]. unfold Prisma.user_update. cbn [user sellerProfile].
  destruct (user db !! userId); [|by repeat split].
  cbn [fst snd status body message RegisterPage.ok].
  split; [done|]. split; [|by repeat split].
  intros _. split; [done|]. by eexists.
Qed.

(** X13 at the blank form, which the endpoint answers 400. *)
Lemma X13_witness :
  Some
    (RegisterPage.error
       (fst (RegisterPage.clickSubmit
               (RegisterPage.Resolved
                  (fst (RegisterRoute.POST inert_runtime example_now
                          example_generated (session_of "u1")
                          (Some (RegisterPage.watch blank_form_at_step5))
                          fresh_db)))
               blank_form_at_step5)))
  = message
      (body
         (fst (RegisterRoute.POST inert_runtime example_now example_generated
                 (session_of "u1")
                 (Some (RegisterPage.watch blank_form_at_step5)) fresh_db))).
Proof.
  refine (proj1 (proj2 (proj2
    (X13_submit_shows_the_answer inert_runtime example_now example_generated
       (session_of "u1") fresh_db blank_form_at_step5
       eq_refl eq_refl eq_refl))) _).
  vm_compute. reflexivity.
Defined.

(** X14.  A form that the client schema accepts, but one of whose tax id,
    licence number, account holder, bank name, account number and
    IFSC/SWIFT code is shorter than the server asks for, is rejected by the
    endpoint: the answer is 400, nothing is stored, and the page shows the
    single message "Invalid input" without marking any field. *)
Theorem X14_client_valid_form_rejected_by_server
    (rt : Runtime) (now : Z) (gen : Generated) (session : option Session)
    (userId : string) (db : Database) (st : RegisterPage.State)
    (d : Data.t) :
  RegisterPage.success st = false ->
  RegisterPage.isLoading st = false ->
  RegisterPage.currentStep st = 5%nat ->
  authenticated_as userId session ->
  ZodObject.safeParse (RegisterPage.sellerRegistrationSchema rt)
    (RegisterPage.watch st)
  = ParseSuccess d ->
  ¬ server_lengths d ->
  let answer :=
    RegisterRoute.POST rt now gen session (Some (RegisterPage.watch st)) db in
  let page :=
    fst (RegisterPage.clickSubmit (RegisterPage.Resolved (fst answer)) st) in
  status (fst answer) = 400%nat
  ∧ snd answer = db
  ∧ RegisterPage.error page = "Invalid input"
  ∧ RegisterPage.success page = false
  ∧ RegisterPage.form_errors page = RegisterPage.form_errors st.
Proof.
  intros Hs Hl Hstep Hauth Hclient Hshort.
  destruct (ZodObject.safeParse (RegisterRoute.sellerRegistrationSchema rt)
              (RegisterPage.watch st)) as [d'|e] eqn:Hserver.
  { apply safeParse_success in Hserver as [_ Hserver].
    apply server_parse_iff_client_parse in Hserver as [Hd' Hlen].
    apply safeParse_success in Hclient as [_ Hclient].
    apply parse_Some_iff in Hd', Hclient.
    assert (d' = d) as -> by congruence. done. }
  simpl.
  rewrite (POST_invalid rt now gen session userId _ e db Hauth Hserver).
  unfold RegisterPage.clickSubmit. rewrite Hs, Hl, Hstep.
  cbn. by rewrite Hs.
Qed.

(** X14 at a form whose tax id has two characters. *)
Lemma X14_witness :
  RegisterPage.error
    (fst (RegisterPage.clickSubmit
            (RegisterPage.Resolved
               (fst (RegisterRoute.POST inert_runtime example_now
                       example_generated (session_of "u1")
                       (Some (RegisterPage.watch short_tax_id_form))
                       fresh_db)))
            short_tax_id_form))
  = "Invalid input".
Proof.
  refine (proj1 (proj2 (proj2
    (X14_client_valid_form_rejected_by_server inert_runtime example_now
       example_generated (session_of "u1") "u1" fresh_db short_tax_id_form
       (Data.mk "Acme Traders" "LLC" None None "+1 555-123-4567"
          None "Jo Doe" "12 Main Street" None "Pune" "MH" "India"
          "411001" "A1" None "LIC-0042" None None
          None None None "Jo Doe" "State Bank" "1234567890"
          "SBIN0001234" None ["Electronics"] true false true)
       eq_refl eq_refl eq_refl _ _ _)))).
  - split; [reflexivity | discriminate].
  - vm_compute. reflexivity.
  - intros [Htax _]. simpl in Htax. lia.
Defined.

(** ** The uploaded documents *)

Lemma find_filter_other (doc_type other : string)
    (l : list DocumentsPage.UploadedFile) :
  other ≠ doc_type ->
  List.find (fun f => String.eqb (DocumentsPage.uploaded_type f) other)
    (filter (fun f => DocumentsPage.uploaded_type f ≠ doc_type) l)
  = List.find (fun f => String.eqb (DocumentsPage.uploaded_type f) other) l.
Proof.
  intros Hne. induction l as [|f l IH]; [done|].
  destruct (decide (DocumentsPage.uploaded_type f = doc_type)) as [Heq|Hkeep].
  - rewrite filter_cons_False by (intros H; by apply H).
    cbn [List.find]. rewrite Heq.
    apply not_eq_sym, String.eqb_neq in Hne. by rewrite Hne.
  - rewrite filter_cons_True by done. cbn [List.find]. by rewrite IH.
Qed.

Lemma find_filter_same (doc_type : string)
    (l : list DocumentsPage.UploadedFile) :
  List.find (fun f => String.eqb (DocumentsPage.uploaded_type f) doc_type)
    (filter (fun f => DocumentsPage.uploaded_type f ≠ doc_type) l)
  = None.
Proof.
  induction l as [|f l IH]; [done|].
  destruct (decide (DocumentsPage.uploaded_type f = doc_type)) as [Heq|Hkeep].
  - by rewrite filter_cons_False by (intros H; by apply H).
  - rewrite filter_cons_True by done. cbn [List.find].
    apply String.eqb_neq in Hkeep. by rewrite Hkeep.
Qed.

Lemma acceptable_checks (f : DocumentsPage.File) :
  acceptable f ->
  bool_decide (DocumentsPage.type f ∈ DocumentsPage.allowedTypes) = true
  ∧ (5 * 1024 * 1024 <? DocumentsPage.size f)%N = false.
Proof.
  intros [Hty Hsz]. split.
  - apply bool_decide_eq_true_2. by apply allowedTypes_spec.
  - apply N.ltb_ge. unfold MiB in Hsz. lia.
Qed.

(** X15.  An accepted file becomes the entry of its document type: the
    card of that type shows this file, with the preview made for it, and
    the cards of the other types show what they showed. *)
Theorem X15_accepted_file_is_shown_under_its_type
    (createObjectURL : DocumentsPage.File -> string) (doc_type : string)
    (f : DocumentsPage.File) (st : DocumentsPage.State) :
  acceptable f ->
  let st' :=
    DocumentsPage.handleFileSelect createObjectURL doc_type (Some f) st in
  DocumentsPage.uploadedFile doc_type st'
  = Some {| DocumentsPage.uploaded_type := doc_type;
            DocumentsPage.file := f;
            DocumentsPage.preview := createObjectURL f |}
  ∧ (∀ other,
       other ≠ doc_type ->
       DocumentsPage.uploadedFile other st'
       = DocumentsPage.uploadedFile other st).
Proof.
  intros [Hty Hsz]%acceptable_checks. simpl.
  unfold DocumentsPage.handleFileSelect, DocumentsPage.uploadedFile.
  rewrite Hty, Hsz. cbn [negb DocumentsPage.uploadedFiles]. split.
  - rewrite find_app, find_filter_same. cbn [List.find].
    cbn [DocumentsPage.uploaded_type]. by rewrite String.eqb_refl.
  - intros other Hne. rewrite find_app, find_filter_other by done.
    destruct (List.find _ (DocumentsPage.uploadedFiles st)); [done|].
    cbn [List.find DocumentsPage.uploaded_type].
    apply not_eq_sym, String.eqb_neq in Hne. by rewrite Hne.
Qed.

(** X15 at a PDF of 4 MiB chosen for the front of the ID. *)
Lemma X15_witness :
  DocumentsPage.uploadedFile "ID_FRONT"
    (DocumentsPage.handleFileSelect example_preview "ID_FRONT"
       (Some example_pdf) DocumentsPage.initial)
  = Some {| DocumentsPage.uploaded_type := "ID_FRONT";
            DocumentsPage.file := example_pdf;
            DocumentsPage.preview := "blob:id-front.pdf" |}.
Proof.
  refine (proj1 (X15_accepted_file_is_shown_under_its_type example_preview
                   "ID_FRONT" example_pdf DocumentsPage.initial _)).
  split.
  - right. right. right. reflexivity.
  - vm_compute. discriminate.
Defined.

(** X16.  Removing the file of a document type empties the card of that
    type, leaves the cards of the other types as they were and clears the
    message. *)
Theorem X16_removed_file_is_gone
    (doc_type : string) (st : DocumentsPage.State) :
  let st' := DocumentsPage.removeFile doc_type st in
  DocumentsPage.uploadedFile doc_type st' = None
  ∧ (∀ other,
       other ≠ doc_type ->
       DocumentsPage.uploadedFile other st'
       = DocumentsPage.uploadedFile other st)
  ∧ DocumentsPage.text (DocumentsPage.message st') = "".
Proof.
  simpl. unfold DocumentsPage.removeFile, DocumentsPage.uploadedFile.
  cbn [DocumentsPage.uploadedFiles].
  split; [apply find_filter_same|]. split; [|done].
  intros other Hne. by apply find_filter_other.
Qed.

Lemma document_event_NoDup createObjectURL st ev :
  NoDup (uploaded_types st) ->
  NoDup (uploaded_types (document_event createObjectURL st ev)).
Proof.
  unfold uploaded_types. intros Hnd.
  assert (Hfilter : ∀ t,
    NoDup (DocumentsPage.uploaded_type <$>
           filter (fun f => DocumentsPage.uploaded_type f ≠ t)
             (DocumentsPage.uploadedFiles st))).
  { intros t. induction (DocumentsPage.uploadedFiles st) as [|f l IH];
      [constructor|].
    rewrite fmap_cons in Hnd. apply NoDup_cons in Hnd as [Hf Hnd].
    destruct (decide (DocumentsPage.uploaded_type f = t)).
    - rewrite filter_cons_False by (intros H; by apply H). by apply IH.
    - rewrite filter_cons_True by done. rewrite fmap_cons.
      apply NoDup_cons. split; [|by apply IH].
      intros (g & Hg & Hin)%list_elem_of_fmap.
      apply list_elem_of_filter in Hin as [_ Hin].
      apply Hf. apply list_elem_of_fmap. eauto. }
  destruct ev as [doc_type [f|]|doc_type]; cbn [document_event].
  - unfold DocumentsPage.handleFileSelect.
    destruct (negb _); [done|]. destruct (_ <? _)%N; [done|].
    cbn [DocumentsPage.uploadedFiles]. rewrite fmap_app.
    apply NoDup_app. split; [apply Hfilter|]. split; [|apply NoDup_singleton].
    intros t (g & -> & Hin)%list_elem_of_fmap Heq%list_elem_of_singleton.
    apply list_elem_of_filter in Hin as [Hne _]. by apply Hne.
  - done.
  - apply Hfilter.
Qed.

(** X17.  The uploaded set never holds two files for one document type:
    starting from the empty page, whatever files are chosen and removed,
    for whatever types and in whatever order, the types of the entries are
    pairwise different. *)
Theorem X17_one_file_per_document_type
    (createObjectURL : DocumentsPage.File -> string)
    (events : list DocumentEvent) :
  NoDup
    (uploaded_types
       (foldl (document_event createObjectURL) DocumentsPage.initial events)).
Proof.
  assert (Hgen : ∀ st,
    NoDup (uploaded_types st) ->
    NoDup (uploaded_types (foldl (document_event createObjectURL) st events))).
  { induction events as [|ev events IH]; intros st Hst; [done|].
    cbn [foldl]. apply IH. by apply document_event_NoDup. }
  apply Hgen. constructor.
Qed.

(** X18.  Submitting the documents goes through exactly when both sides of
    the government ID are uploaded; the four other document types never
    matter.  When it goes through, the success message is shown and the
    dashboard is pushed.  Otherwise nothing is pushed and the error message
    names what is missing: the front, the back, or both, in that order.
    The uploaded files are left as they are either way.  With nothing
    uploaded the button is disabled and a click does nothing. *)
Theorem X18_submission_needs_both_sides_of_the_id
    (st : DocumentsPage.State) :
  let front := bool_decide ("ID_FRONT" ∈ uploaded_types st) in
  let back := bool_decide ("ID_BACK" ∈ uploaded_types st) in
  let result := DocumentsPage.handleSubmit st in
  (DocumentsPage.uploadedFiles st = [] ->
   DocumentsPage.clickSubmit st = (st, None))
  ∧ (DocumentsPage.uploadedFiles st ≠ [] ->
     DocumentsPage.clickSubmit st = result)
  ∧ DocumentsPage.uploadedFiles (fst result) = DocumentsPage.uploadedFiles st
  ∧ (snd result = Some "/seller/dashboard" <-> front && back = true)
  ∧ (snd result = None <-> front && back = false)
  ∧ DocumentsPage.message (fst result)
    = if front && back then
        {| DocumentsPage.message_type := "success";
           DocumentsPage.text :=
             "Documents uploaded successfully! Your verification is under review." |}
      else
        {| DocumentsPage.message_type := "error";
           DocumentsPage.text :=
             "Please upload required documents: "
             ++ DocumentsPage.join ", "
                  ((if front then [] else ["Government ID (Front)"])
                   ++ (if back then [] else ["Government ID (Back)"]))%list |}.
Proof.
  cbv zeta. split; [|split].
  { intros Hempty. unfold DocumentsPage.clickSubmit. by rewrite Hempty. }
  { intros Hsome. unfold DocumentsPage.clickSubmit.
    by destruct (DocumentsPage.uploadedFiles st). }
  unfold DocumentsPage.handleSubmit, uploaded_types.
  set (types := DocumentsPage.uploaded_type <$> DocumentsPage.uploadedFiles st).
  replace (DocumentsPage.value <$>
           filter (fun t => DocumentsPage.required t = true)
             DocumentsPage.documentTypes)
    with ["ID_FRONT"; "ID_BACK"] by reflexivity.
  rewrite !filter_cons, filter_nil.
  destruct (decide ("ID_FRONT" ∉ types)) as [Hf|Hf],
    (decide ("ID_BACK" ∉ types)) as [Hb|Hb];
    try (apply dec_stable in Hf); try (apply dec_stable in Hb);
    repeat match goal with
    | H : _ ∉ types |- _ =>
        rewrite (bool_decide_eq_false_2 _ H); clear H
    | H : _ ∈ types |- _ =>
        rewrite (bool_decide_eq_true_2 _ H); clear H
    end;
    by vm_compute.
Qed.

(** ** The seller dashboard *)

Lemma authenticated_as_unique (session : option Session) (a b : string) :
  authenticated_as a session -> authenticated_as b session -> a = b.
Proof. intros [Ha _] [Hb _]. congruence. Qed.

(** The three answers of the profile query. *)
Lemma ProfileRoute_GET_cases (session : option Session) (db : Database) :
  (unauthenticated session
   ∧ fst (ProfileRoute.GET session db)
     = {| body := message_only "Authentication required"; status := 401 |})
  ∨ ∃ userId,
      authenticated_as userId session
      ∧ ((Prisma.findUnique userId db = None
          ∧ fst (ProfileRoute.GET session db)
            = {| body := message_only "Seller profile not found";
                 status := 404 |})
         ∨ ∃ r,
             Prisma.findUnique userId db = Some r
             ∧ fst (ProfileRoute.GET session db)
               = {| body :=
                      {| message := None; errors := None;
                         seller :=
                           Some (Prisma.select ProfileRoute.profile_selection
                                   r) |};
                    status := 200 |}).
Proof.
  unfold ProfileRoute.GET.
  destruct (session_user_id session) as [userId|] eqn:Hid.
  - destruct (truthy_string userId) eqn:Ht.
    + right. exists userId. split.
      { split; [done|]. intros ->. discriminate Ht. }
      destruct (Prisma.findUnique userId db) as [r|];
        [right; exists r|left]; by split.
    + left. split; [|done]. intros u [Hu Hne]. apply Hne.
      apply truthy_string_false. congruence.
  - left. split; [|done]. intros u [Hu _]. congruence.
Qed.

(** X19.  The dashboard fetches the profile and the query endpoint answers.
    Whatever the answer, the page stops loading.  For an identity with a
    profile the page holds the twelve-key selection of its row and shows
    the dashboard; for an identity without one the page pushes the
    registration form and holds what it held; when the endpoint sees no
    identity the page pushes nothing and holds what it held. *)
Theorem X19_dashboard_follows_the_profile_query
    (session : option Session) (db : Database)
    (st : SellerDashboard.State) :
  let result :=
    SellerDashboard.fetchSellerProfile
      (RegisterPage.Resolved (fst (ProfileRoute.GET session db))) st in
  SellerDashboard.loading (fst result) = false
  ∧ (unauthenticated session ->
     snd result = None
     ∧ SellerDashboard.sellerProfile (fst result)
       = SellerDashboard.sellerProfile st)
  ∧ (∀ userId,
       authenticated_as userId session ->
       match Prisma.findUnique userId db with
       | None =>
           snd result = Some "/seller/register"
           ∧ SellerDashboard.sellerProfile (fst result)
             = SellerDashboard.sellerProfile st
       | Some r =>
           snd result = None
           ∧ SellerDashboard.sellerProfile (fst result)
             = Some (Prisma.select ProfileRoute.profile_selection r)
           ∧ SellerDashboard.render SellerDashboard.authenticated (fst result)
             = SellerDashboard.Dashboard
                 (Prisma.select ProfileRoute.profile_selection r)
       end).
Proof.
  cbv zeta.
  destruct (ProfileRoute_GET_cases session db)
    as [[Hno ->]|(userId & Hauth & [[Hfind ->]|(r & Hfind & ->)])];
    cbn [fst].
  - split; [reflexivity|]. split; [by intros _|].
    intros userId Hauth. by destruct (Hno userId).
  - split; [reflexivity|]. split; [intros Hno; by destruct (Hno userId)|].
    intros userId' Hauth'.
    rewrite <- (authenticated_as_unique _ _ _ Hauth Hauth'). by rewrite Hfind.
  - split; [reflexivity|]. split; [intros Hno; by destruct (Hno userId)|].
    intros userId' Hauth'.
    rewrite <- (authenticated_as_unique _ _ _ Hauth Hauth'), Hfind.
    generalize (Prisma.select ProfileRoute.profile_selection r).
    by intros p.
Qed.

(** X20.  Until the session becomes authenticated the dashboard never
    fetches and never leaves its loading view: while the status changes
    are only to loading or unauthenticated the page state is the initial
    one and the page renders "Loading...", also for the status
    unauthenticated, whose redirection to the sign-in page is therefore
    not reached. *)
Theorem X20_dashboard_loading_until_authenticated
    (changes :
       list (SellerDashboard.SessionStatus * RegisterPage.FetchOutcome)) :
  Forall (fun c => not_authenticated (fst c)) changes ->
  dashboard_after changes = SellerDashboard.initial
  ∧ (∀ session_status,
       SellerDashboard.render session_status (dashboard_after changes)
       = SellerDashboard.Loading).
Proof.
  intros Hall.
  assert (Hinit : dashboard_after changes = SellerDashboard.initial).
  { unfold dashboard_after.
    induction Hall as [|[s o] changes Hs _ IH]; [done|].
    cbn [foldl]. unfold not_authenticated in Hs. cbn [fst snd] in *.
    destruct s; [|done|]; exact IH. }
  split; [done|]. rewrite Hinit. by intros [].
Qed.

(** X20 at a visitor who is not signed in: the status goes from loading to
    unauthenticated. *)
Lemma X20_witness :
  SellerDashboard.render SellerDashboard.unauthenticated
    (dashboard_after
       [ (SellerDashboard.session_loading, RegisterPage.Rejected);
         (SellerDashboard.unauthenticated, RegisterPage.Rejected) ])
  = SellerDashboard.Loading.
Proof.
  refine (proj2 (X20_dashboard_loading_until_authenticated _ _) _).
  repeat constructor; discriminate.
Defined.

(** ** Years in business, coerced *)

(** X21.  The schema coerces yearsInBusiness with [Number]: null, false, 0,
    -0 and a string of white space only (the empty string included) all
    pass validation as zero, which the handler then stores as null; true
    passes as 1 and is stored as 1; and a key that is absent is stored as
    null as well. *)
Theorem X21_years_in_business_coercions (rt : Runtime) :
  let years :=
    Shape.yearsInBusiness (RegisterRoute.sellerRegistrationSchema rt) in
  let stored v := RegisterRoute.number_or_null <$> years v in
  stored None = Some CNull
  ∧ stored (Some JNull) = Some CNull
  ∧ stored (Some (JBool false)) = Some CNull
  ∧ stored (Some (JNum 0)) = Some CNull
  ∧ stored (Some (JNum (-0))) = Some CNull
  ∧ (∀ s, string_forallb is_space s = true ->
          years (Some (JStr s)) = Some (Some 0%float)
          ∧ stored (Some (JStr s)) = Some CNull)
  ∧ stored (Some (JBool true)) = Some (CNum 1)
  ∧ (∀ x, years (Some (JNum x)) = Some (Some x) ->
          stored (Some (JNum x))
          = Some (if PrimFloat.eqb x 0 then CNull else CNum x)).
Proof.
  cbv zeta. cbn [RegisterRoute.sellerRegistrationSchema Shape.yearsInBusiness].
  split; [reflexivity|]. split; [reflexivity|]. split; [reflexivity|].
  split; [reflexivity|]. split; [reflexivity|]. split; [|split].
  - intros s Hs.
    assert (Hyears :
      Zod.optional
        (Zod.max_number 100 (Zod.min_number 0 (Zod.coerce_number rt)))
        (Some (JStr s))
      = Some (Some 0%float)).
    { unfold Zod.optional, Zod.max_number, Zod.min_number, Zod.refine,
        Zod.coerce_number, Number. by rewrite Hs. }
    split; [exact Hyears|]. by rewrite Hyears.
  - reflexivity.
  - intros x Hx. rewrite Hx. cbn [fmap option_fmap option_map].
    unfold RegisterRoute.number_or_null, truthy_number. f_equal.
    apply optional_present in Hx.
    apply refine_Some in Hx as [Hx _]. apply refine_Some in Hx as [Hx _].
    unfold Zod.coerce_number, Number in Hx.
    destruct (is_nan x); [done|]. by destruct (PrimFloat.eqb x 0).
Qed.
